(** * Hotel booking: a shallow embedding of [hotel_booking.py]

    The Python module keeps mutable [Room] and [Customer] objects that are
    shared by reference between the hotel's room list and each customer's
    [booked_rooms] list.  The embedding therefore works over an explicit
    store: two heaps of objects addressed by locations, the single hotel of
    the session, the records handed to the [logging] module and the wall
    clock that [datetime.now()] reads.

    Every method is a computation in a state-and-exception monad: a raised
    exception keeps the store as it was at the [raise], as in Python.

    Numbers.  Room numbers, guest counts, nights and loyalty points are
    Python [int]s, modelled as [Z].  Prices and budgets are Python [float]s;
    they are modelled as exact rationals [Q], so rounding error, infinities
    and NaN are outside the model.  [int(x)] is truncation toward zero and
    [round(x, 2)] is rounding to the nearest hundredth, ties to even. *)

From Stdlib Require Import ZArith QArith Qround String Ascii List Lia.
From stdpp Require Import gmap strings list fin_maps pretty.

Local Open Scope string_scope.
Local Open Scope list_scope.
Local Open Scope Z_scope.

(** ** Python values and helpers *)

Definition loc := positive.

Inductive exn : Type :=
  | ValueError (msg : string)
  | IndexError (msg : string)
  | KeyError (key : string)
  | ReferenceFault (l : loc).

(** [l[i]] on a Python list: a negative index counts from the end. *)
Definition py_getitem {A : Type} (l : list A) (i : Z) : option A :=
  let n := Z.of_nat (length l) in
  if 0 <=? i then nth_error l (Z.to_nat i)
  else if - n <=? i then nth_error l (Z.to_nat (n + i))
  else None.

(** [list.remove(x)]: drop the first element equal to [x]; [None] stands for
    the [ValueError] Python raises when there is none. *)
Fixpoint py_list_remove (x : loc) (l : list loc) : option (list loc) :=
  match l with
  | [] => None
  | y :: l' =>
      if Pos.eqb y x then Some l'
      else match py_list_remove x l' with
           | Some r => Some (y :: r)
           | None => None
           end
  end.

(** [x in l] on a list of object references (identity comparison). *)
Definition py_in (x : loc) (l : list loc) : bool := existsb (Pos.eqb x) l.

(** [str.isspace] on one character (code points below 256). *)
Definition isspace (c : ascii) : bool :=
  let n := N_of_ascii c in
  (((9 <=? n) && (n <=? 13)) || ((28 <=? n) && (n <=? 32))
   || (n =? 133) || (n =? 160))%N.

Fixpoint lstrip (s : list ascii) : list ascii :=
  match s with
  | c :: s' => if isspace c then lstrip s' else s
  | [] => []
  end.

(** [str.strip()] *)
Definition strip (s : string) : string :=
  string_of_list_ascii
    (rev (lstrip (rev (lstrip (list_ascii_of_string s))))).

(** Truth value of a Python string: [not s] holds for the empty string. *)
Definition py_not_str (s : string) : bool :=
  match s with EmptyString => true | String _ _ => false end.

(** [int(q)]: truncation toward zero. *)
Definition py_int (q : Q) : Z := Z.quot (Qnum q) (Z.pos (Qden q)).

(** Nearest integer, ties to the even neighbour. *)
Definition round_half_even (q : Q) : Z :=
  let f := Qfloor q in
  match ((q - inject_Z f) ?= (1 # 2))%Q with
  | Lt => f
  | Gt => f + 1
  | Eq => if Z.even f then f else f + 1
  end.

(** [round(q, 2)] *)
Definition py_round2 (q : Q) : Q :=
  (inject_Z (round_half_even (q * 100)) / 100)%Q.

(** ** Objects *)

Record RoomObj : Type := mkRoom {
  room_number : Z;
  room_type : string;
  price_per_night : Q;
  is_available : bool;
  max_guests : Z
}.

Record CustomerObj : Type := mkCustomer {
  name : string;
  budget : Q;
  booked_rooms : list loc;
  loyalty_points : Z
}.

(** The dictionary built by [Hotel.log_booking]. *)
Record LogEntry : Type := mkLogEntry {
  log_timestamp : string;
  log_customer : string;
  log_room_number : Z;
  log_room_type : string;
  log_nights : Z;
  log_total_price : Q;
  log_season : string
}.

Record HotelObj : Type := mkHotel {
  hotel_name : string;
  rooms : list loc;
  bookings_log : list LogEntry
}.

(** What [datetime.now()] returns, as far as the module looks at it. *)
Record DateTime : Type := mkDateTime {
  month : Z;
  isoformat : string
}.

(** Records received by the [logging] module. *)
Inductive Level : Type := INFO | WARNING.

Inductive LogMsg : Type :=
  | Logged_booking (e : LogEntry)
  | Booking_failed_not_available (n : Z)
  | Booking_filed_guests_exceed (guests maxg : Z)
  | Booking_failed_does_not_pay (cust : string) (total_price : Q)
  | Booking_successful (cust : string) (n : Z)
  | Booking_cancelled (cust : string) (n : Z).

(** ** The store *)

Record World : Type := mkWorld {
  room_heap : gmap loc RoomObj;
  cust_heap : gmap loc CustomerObj;
  hotel : HotelObj;
  sink : list (Level * LogMsg);
  wall_clock : nat -> DateTime;
  ticks : nat
}.

Definition set_room_heap (f : gmap loc RoomObj -> gmap loc RoomObj) (w : World) : World :=
  mkWorld (f (room_heap w)) (cust_heap w) (hotel w) (sink w) (wall_clock w) (ticks w).

Definition set_cust_heap (f : gmap loc CustomerObj -> gmap loc CustomerObj) (w : World) : World :=
  mkWorld (room_heap w) (f (cust_heap w)) (hotel w) (sink w) (wall_clock w) (ticks w).

Definition set_hotel (f : HotelObj -> HotelObj) (w : World) : World :=
  mkWorld (room_heap w) (cust_heap w) (f (hotel w)) (sink w) (wall_clock w) (ticks w).

Definition set_sink (f : list (Level * LogMsg) -> list (Level * LogMsg)) (w : World) : World :=
  mkWorld (room_heap w) (cust_heap w) (hotel w) (f (sink w)) (wall_clock w) (ticks w).

Definition set_ticks (f : nat -> nat) (w : World) : World :=
  mkWorld (room_heap w) (cust_heap w) (hotel w) (sink w) (wall_clock w) (f (ticks w)).

(** ** The monad of Python computations *)

Inductive Res (A : Type) : Type :=
  | Ok (a : A)
  | Raise (e : exn).
Arguments Ok {A} a.
Arguments Raise {A} e.

Definition M (A : Type) : Type := World -> Res A * World.

Definition ret {A : Type} (a : A) : M A := fun w => (Ok a, w).

Definition raise {A : Type} (e : exn) : M A := fun w => (Raise e, w).

Definition bind {A B : Type} (c : M A) (k : A -> M B) : M B :=
  fun w => match c w with
           | (Ok a, w') => k a w'
           | (Raise e, w') => (Raise e, w')
           end.

Declare Scope py_scope.
Delimit Scope py_scope with py.
Notation "x <- c ;; k" := (bind c (fun x => k))
  (at level 100, c at next level, right associativity) : py_scope.
Notation "c ;;; k" := (bind c (fun _ => k))
  (at level 100, right associativity) : py_scope.
Local Open Scope py_scope.

Definition modify (f : World -> World) : M unit := fun w => (Ok tt, f w).

Definition get_room (r : loc) : M RoomObj :=
  fun w => match room_heap w !! r with
           | Some o => (Ok o, w)
           | None => (Raise (ReferenceFault r), w)
           end.

Definition get_customer (c : loc) : M CustomerObj :=
  fun w => match cust_heap w !! c with
           | Some o => (Ok o, w)
           | None => (Raise (ReferenceFault c), w)
           end.

Definition get_hotel : M HotelObj := fun w => (Ok (hotel w), w).

(** [isinstance(r, Room)]: the reference denotes a room object. *)
Definition isinstance_Room (r : loc) : M bool :=
  fun w => (Ok (match room_heap w !! r with Some _ => true | None => false end), w).

Definition put_room (r : loc) (o : RoomObj) : M unit :=
  modify (set_room_heap (fun h => <[r := o]> h)).

Definition put_customer (c : loc) (o : CustomerObj) : M unit :=
  modify (set_cust_heap (fun h => <[c := o]> h)).

Definition put_hotel (o : HotelObj) : M unit :=
  modify (set_hotel (fun _ => o)).

(** [logging.info] and [logging.warning] *)
Definition logging (lv : Level) (m : LogMsg) : M unit :=
  modify (set_sink (fun s => s ++ [(lv, m)])).

(** [datetime.now()]: the next reading of the wall clock. *)
Definition datetime_now : M DateTime :=
  fun w => (Ok (wall_clock w (ticks w)), set_ticks S w).

(** ** Seasons *)

Definition SEASON_MULTIPLIERS : gmap string Q :=
  {[ "winter" := 0.8%Q; "spring" := 1.0%Q; "summer" := 1.3%Q; "fall" := 1.1%Q ]}.

Definition season_table : list string :=
  [ "winter"; "winter"; "spring"; "spring"; "spring";
    "summer"; "summer"; "summer"; "fall"; "fall"; "fall"; "winter" ].

(** The table lookup of [get_current_season], for a given month number. *)
Definition season_of_month (m : Z) : option string :=
  py_getitem season_table (m - 1).

Definition get_current_season : M string :=
  now <- datetime_now ;;
  match season_of_month (month now) with
  | Some s => ret s
  | None => raise (IndexError "list index out of range")
  end.

(** [SEASON_MULTIPLIERS[key]] *)
Definition season_multiplier (key : string) : M Q :=
  match SEASON_MULTIPLIERS !! key with
  | Some q => ret q
  | None => raise (KeyError key)
  end.

(** ** class Room *)

Definition set_is_available (b : bool) (o : RoomObj) : RoomObj :=
  mkRoom (room_number o) (room_type o) (price_per_night o) b (max_guests o).

Module Room.

(** [Room.__init__]: validates, then allocates a fresh object. *)
Definition init (room_number : Z) (room_type : string)
    (price_per_night : Q) (max_guests : Z) : M loc :=
  if negb (existsb (String.eqb room_type) ["Single"; "Double"])
  then raise (ValueError "room type must be 'Single' or 'Double'")
  else if Qle_bool price_per_night 0
  then raise (ValueError "price must be positive")
  else if max_guests <=? 0
  then raise (ValueError "max guests must be positive")
  else fun w =>
    let self := fresh (dom (room_heap w)) in
    (Ok self,
     set_room_heap
       (fun h => <[self := mkRoom room_number room_type price_per_night true max_guests]> h)
       w).

Definition book_room (self : loc) : M unit :=
  o <- get_room self ;;
  if negb (is_available o)
  then raise (ValueError ("room " +:+ pretty (room_number o) +:+ " is not available"))
  else put_room self (set_is_available false o).

Definition release_room (self : loc) : M unit :=
  o <- get_room self ;;
  put_room self (set_is_available true o).

Definition calculate_price (self : loc) (nights : Z) : M Q :=
  if nights <=? 0
  then raise (ValueError "nights must be positive")
  else
    season <- get_current_season ;;
    multiplier <- season_multiplier season ;;
    o <- get_room self ;;
    ret (price_per_night o * multiplier * inject_Z nights)%Q.

End Room.

(** ** class Customer *)

Definition set_budget (b : Q) (o : CustomerObj) : CustomerObj :=
  mkCustomer (name o) b (booked_rooms o) (loyalty_points o).

Definition set_booked_rooms (l : list loc) (o : CustomerObj) : CustomerObj :=
  mkCustomer (name o) (budget o) l (loyalty_points o).

Definition set_loyalty_points (p : Z) (o : CustomerObj) : CustomerObj :=
  mkCustomer (name o) (budget o) (booked_rooms o) p.

(** The rooms listed in a booking summary, one line per room. *)
Fixpoint summary_lines (l : list loc) : M (list (Z * Q)) :=
  match l with
  | [] => ret []
  | r :: l' =>
      o <- get_room r ;;
      rest <- summary_lines l' ;;
      ret ((room_number o, price_per_night o) :: rest)
  end.

Module Customer.

(** [Customer.__init__] *)
Definition init (name : string) (budget : Q) : M loc :=
  if py_not_str name || py_not_str (strip name)
  then raise (ValueError "name cannot be empty")
  else if Qle_bool budget 0
  then raise (ValueError "budget must be positive")
  else fun w =>
    let self := fresh (dom (cust_heap w)) in
    (Ok self,
     set_cust_heap (fun h => <[self := mkCustomer name budget [] 0]> h) w).

Definition add_room (self : loc) (room : loc) : M unit :=
  is_room <- isinstance_Room room ;;
  if negb is_room
  then raise (ValueError "room must be of type 'Room'")
  else
    c <- get_customer self ;;
    put_customer self (set_booked_rooms (booked_rooms c ++ [room]) c).

Definition remove_room (self : loc) (room : loc) : M unit :=
  is_room <- isinstance_Room room ;;
  if negb is_room
  then raise (ValueError "room must be of type 'Room'")
  else
    c <- get_customer self ;;
    match py_list_remove room (booked_rooms c) with
    | Some l => put_customer self (set_booked_rooms l c)
    | None => raise (ValueError "list.remove(x): x not in list")
    end.

Definition pay_for_booking (self : loc) (total_price : Q) : M bool :=
  if Qle_bool total_price 0
  then raise (ValueError "total_price must be positive")
  else
    c <- get_customer self ;;
    if Qle_bool total_price (budget c)
    then
      put_customer self (set_budget (budget c - total_price)%Q c) ;;;
      c' <- get_customer self ;;
      put_customer self
        (set_loyalty_points (loyalty_points c' + py_int (total_price / 100)%Q) c') ;;;
      ret true
    else ret false.

(** The summary text is kept structured: the customer's name and one
    (room number, price per night) pair per booked room. *)
Definition show_booking_summary (self : loc) : M (string * list (Z * Q)) :=
  c <- get_customer self ;;
  match booked_rooms c with
  | [] => raise (ValueError "no room bookings")
  | _ :: _ =>
      ls <- summary_lines (booked_rooms c) ;;
      ret (name c, ls)
  end.

End Customer.

(** ** class Hotel *)

Definition set_rooms (l : list loc) (h : HotelObj) : HotelObj :=
  mkHotel (hotel_name h) l (bookings_log h).

Definition set_bookings_log (l : list LogEntry) (h : HotelObj) : HotelObj :=
  mkHotel (hotel_name h) (rooms h) l.

(** [any(r.room_number == n for r in l)] *)
Fixpoint any_room_number (l : list loc) (n : Z) : M bool :=
  match l with
  | [] => ret false
  | r :: l' =>
      o <- get_room r ;;
      if room_number o =? n then ret true else any_room_number l' n
  end.

(** The loop of [Hotel._find_room]. *)
Fixpoint find_in (l : list loc) (n : Z) : M loc :=
  match l with
  | [] => raise (ValueError ("room " +:+ pretty n +:+ " not found"))
  | r :: l' =>
      o <- get_room r ;;
      if room_number o =? n then ret r else find_in l' n
  end.

(** [[r for r in l if p(r)]] *)
Fixpoint filter_rooms (p : RoomObj -> bool) (l : list loc) : M (list loc) :=
  match l with
  | [] => ret []
  | r :: l' =>
      o <- get_room r ;;
      rest <- filter_rooms p l' ;;
      ret (if p o then r :: rest else rest)
  end.

Module Hotel.

(** [Hotel.__init__]: the object it builds, or the exception. *)
Definition init (name : string) : Res HotelObj :=
  if py_not_str name || py_not_str (strip name)
  then Raise (ValueError "name cannot be empty")
  else Ok (mkHotel name [] []).

Definition add_room (room : loc) : M unit :=
  is_room <- isinstance_Room room ;;
  if negb is_room
  then raise (ValueError "room must be of type 'Room'")
  else
    h <- get_hotel ;;
    o <- get_room room ;;
    dup <- any_room_number (rooms h) (room_number o) ;;
    if dup
    then raise (ValueError ("room " +:+ pretty (room_number o) +:+ " already exists"))
    else put_hotel (set_rooms (rooms h ++ [room]) h).

Definition show_available_rooms (rtype : option string) : M (list loc) :=
  h <- get_hotel ;;
  available <- filter_rooms is_available (rooms h) ;;
  match rtype with
  | None => ret available
  | Some t =>
      if py_not_str t then ret available
      else if negb (existsb (String.eqb t) ["Single"; "Double"])
      then raise (ValueError "room type must be 'Single' or 'Double'")
      else filter_rooms (fun o => String.eqb (room_type o) t) available
  end.

Definition _find_room (number : Z) : M loc :=
  h <- get_hotel ;;
  find_in (rooms h) number.

Definition calculate_total_booking (number : Z) (nights : Z) : M Q :=
  room <- _find_room number ;;
  Room.calculate_price room nights.

Definition log_booking (customer : loc) (room : loc) (total_price : Q)
    (nights : Z) : M unit :=
  now <- datetime_now ;;
  c <- get_customer customer ;;
  o <- get_room room ;;
  season <- get_current_season ;;
  let log_entry :=
    mkLogEntry (isoformat now) (name c) (room_number o)
      (room_type o) nights (py_round2 total_price) season in
  h <- get_hotel ;;
  put_hotel (set_bookings_log (bookings_log h ++ [log_entry]) h) ;;;
  logging INFO (Logged_booking log_entry).

Definition book_room_for_customer (customer : loc) (number : Z)
    (nights : Z) (guests : Z) : M bool :=
  if nights <=? 0 then raise (ValueError "nights must be positive")
  else if guests <=? 0 then raise (ValueError "guests must be positive")
  else
    room <- _find_room number ;;
    o <- get_room room ;;
    if negb (is_available o)
    then
      logging WARNING (Booking_failed_not_available (room_number o)) ;;;
      ret false
    else if max_guests o <? guests
    then
      logging WARNING (Booking_filed_guests_exceed guests (max_guests o)) ;;;
      ret false
    else
      total_price <- calculate_total_booking number nights ;;
      paid <- Customer.pay_for_booking customer total_price ;;
      if negb paid
      then
        c <- get_customer customer ;;
        logging WARNING (Booking_failed_does_not_pay (name c) total_price) ;;;
        ret false
      else
        Room.book_room room ;;;
        Customer.add_room customer room ;;;
        c <- get_customer customer ;;
        o' <- get_room room ;;
        logging INFO (Booking_successful (name c) (room_number o')) ;;;
        log_booking customer room total_price nights ;;;
        ret true.

Definition cancel_booking (customer : loc) (number : Z) : M unit :=
  room <- _find_room number ;;
  c <- get_customer customer ;;
  if negb (py_in room (booked_rooms c))
  then raise (ValueError ("customer " +:+ name c +:+ " has no booking for room "
                          +:+ pretty number))
  else
    Room.release_room room ;;;
    Customer.remove_room customer room ;;;
    c' <- get_customer customer ;;
    logging INFO (Booking_cancelled (name c') number).

End Hotel.

(** * Vocabulary of the properties *)


(** The outcome of the [_find_room] loop, read off the room heap. *)
Fixpoint find_res (h : gmap loc RoomObj) (l : list loc) (n : Z) : Res loc :=
  match l with
  | [] => Raise (ValueError ("room " +:+ pretty n +:+ " not found"))
  | r :: l' =>
      match h !! r with
      | None => Raise (ReferenceFault r)
      | Some o => if room_number o =? n then Ok r else find_res h l' n
      end
  end.

(** The hotel's own invariant: every listed room is allocated and no two
    listed rooms share a room number. *)
Definition hotel_rooms_ok (w : World) : Prop :=
  (forall r, In r (rooms (hotel w)) -> is_Some (room_heap w !! r))
  /\ (forall r1 r2 o1 o2,
        In r1 (rooms (hotel w)) -> In r2 (rooms (hotel w)) ->
        room_heap w !! r1 = Some o1 -> room_heap w !! r2 = Some o2 ->
        room_number o1 = room_number o2 -> r1 = r2).

(** No object differs between [w] and [w']; the logging sink and the clock
    may. *)
Definition same_objects (w w' : World) : Prop :=
  room_heap w' = room_heap w /\ cust_heap w' = cust_heap w /\ hotel w' = hotel w.

(** The customer object after a successful booking of [room] that cost
    [total]. *)
Definition booked_customer (c : CustomerObj) (room : loc) (total : Q) : CustomerObj :=
  mkCustomer (name c) (budget c - total)%Q (booked_rooms c ++ [room])
    (loyalty_points c + py_int (total / 100)%Q).

(** A store for examples: the two rooms and the customer of the test suite,
    on a July day. *)
Definition sample_world : World :=
  mkWorld
    {[ 1%positive := mkRoom 101 "Single" 100 true 1;
       2%positive := mkRoom 102 "Double" 150 true 2 ]}
    {[ 1%positive := mkCustomer "lasha" 500 [] 0 ]}
    (mkHotel "Hotel" [1%positive; 2%positive] [])
    []
    (fun _ => mkDateTime 7 "2024-07-01T12:00:00")
    0.

(** What [Room.__init__] guarantees of every room it builds. *)
Definition room_valid (o : RoomObj) : Prop :=
  (room_type o = "Single" \/ room_type o = "Double")
  /\ (0 < price_per_night o)%Q
  /\ 0 < max_guests o.


(** The store after customer [customer] cancelled room [room]. *)
Definition cancelled_world (w : World) (customer room : loc) (c : CustomerObj)
    (o : RoomObj) (l : list loc) (number : Z) : World :=
  set_sink (fun s => s ++ [(INFO, Booking_cancelled (name c) number)])
    (set_cust_heap (fun h => <[customer := set_booked_rooms l c]> h)
       (set_room_heap (fun h => <[room := set_is_available true o]> h) w)).

(** One call of a constructor or public method.  The hotel of the session is
    built once, before the first operation. *)
Inductive Op : Type :=
  | NewRoom (number : Z) (rtype : string) (price : Q) (maxg : Z)
  | NewCustomer (cname : string) (cbudget : Q)
  | RoomBook (room : loc)
  | RoomRelease (room : loc)
  | RoomPrice (room : loc) (nights : Z)
  | CustAdd (customer room : loc)
  | CustRemove (customer room : loc)
  | CustPay (customer : loc) (total_price : Q)
  | CustSummary (customer : loc)
  | HotelAdd (room : loc)
  | HotelShow (rtype : option string)
  | HotelTotal (number nights : Z)
  | HotelLog (customer room : loc) (total_price : Q) (nights : Z)
  | HotelBook (customer : loc) (number nights guests : Z)
  | HotelCancel (customer : loc) (number : Z).

(** The store an operation leaves behind, whether it returned or raised. *)
Definition exec (op : Op) (w : World) : World :=
  match op with
  | NewRoom n t p g => snd (Room.init n t p g w)
  | NewCustomer n b => snd (Customer.init n b w)
  | RoomBook r => snd (Room.book_room r w)
  | RoomRelease r => snd (Room.release_room r w)
  | RoomPrice r n => snd (Room.calculate_price r n w)
  | CustAdd c r => snd (Customer.add_room c r w)
  | CustRemove c r => snd (Customer.remove_room c r w)
  | CustPay c x => snd (Customer.pay_for_booking c x w)
  | CustSummary c => snd (Customer.show_booking_summary c w)
  | HotelAdd r => snd (Hotel.add_room r w)
  | HotelShow t => snd (Hotel.show_available_rooms t w)
  | HotelTotal n k => snd (Hotel.calculate_total_booking n k w)
  | HotelLog c r x k => snd (Hotel.log_booking c r x k w)
  | HotelBook c n k g => snd (Hotel.book_room_for_customer c n k g w)
  | HotelCancel c n => snd (Hotel.cancel_booking c n w)
  end.

(** A whole session, first operation first. *)
Definition exec_all (ops : list Op) (w : World) : World :=
  fold_left (fun w op => exec op w) ops w.

(** Constructors and the public methods of [Hotel]. *)
Definition hotel_op (op : Op) : Prop :=
  match op with
  | NewRoom _ _ _ _ | NewCustomer _ _ | HotelAdd _ | HotelShow _
  | HotelTotal _ _ | HotelLog _ _ _ _ | HotelBook _ _ _ _ | HotelCancel _ _ => True
  | _ => False
  end.

(** Operations that give a room back. *)
Definition releases (op : Op) : Prop :=
  match op with
  | HotelCancel _ _ | RoomRelease _ => True
  | _ => False
  end.

(** The store right after [Hotel(name)]: no rooms, no customers yet. *)
Definition fresh_world (h : HotelObj) (clock : nat -> DateTime) : World :=
  mkWorld ∅ ∅ h [] clock 0.

(** Rooms persist from [w] to [w']: every room object is still there, under
    the same number, and still booked if it was; the hotel's list has only
    grown at the end. *)
Definition rooms_persist (w w' : World) : Prop :=
  (forall y o, room_heap w !! y = Some o ->
     exists o', room_heap w' !! y = Some o'
                /\ room_number o' = room_number o
                /\ (is_available o = false -> is_available o' = false))
  /\ exists l', rooms (hotel w') = rooms (hotel w) ++ l'.

(** The room found under [number] is [room], and it is booked. *)
Definition taken (number : Z) (room : loc) (w : World) : Prop :=
  find_res (room_heap w) (rooms (hotel w)) number = Ok room
  /\ exists o, room_heap w !! room = Some o /\ is_available o = false.


(** Consistency of the two heaps: a room on a customer's list is allocated
    and booked, and it is listed once, by one customer only. *)
Record consistent (rh : gmap loc RoomObj) (ch : gmap loc CustomerObj) : Prop := {
  listed_unavailable :
    forall customer c room,
      ch !! customer = Some c -> In room (booked_rooms c) ->
      exists o, rh !! room = Some o /\ is_available o = false;
  listed_once :
    forall customer c, ch !! customer = Some c -> List.NoDup (booked_rooms c);
  listed_by_one :
    forall c1 c2 o1 o2 room,
      ch !! c1 = Some o1 -> ch !! c2 = Some o2 ->
      In room (booked_rooms o1) -> In room (booked_rooms o2) -> c1 = c2
}.

(** A session for examples: two rooms, one customer, a booking, a refused
    second booking, another booking and a cancellation. *)
Definition sample_session : list Op :=
  [ NewRoom 101 "Single" 100 1;
    NewRoom 102 "Double" 150 2;
    HotelAdd 1%positive;
    HotelAdd 2%positive;
    NewCustomer "lasha" 500;
    HotelBook 1%positive 101 2 1;
    HotelBook 1%positive 101 1 1;
    HotelBook 1%positive 102 1 2;
    HotelCancel 1%positive 101 ].

Definition sample_clock (t : nat) : DateTime := mkDateTime 7 "2024-07-01T12:00:00".




(** The test [show_available_rooms] applies to a room for a given
    [room_type] argument. *)
Definition offered_as (rtype : option string) (o : RoomObj) : bool :=
  is_available o
  && match rtype with
     | None => true
     | Some t => py_not_str t || String.eqb (room_type o) t
     end.

(** The listed rooms that pass a test, in list order. *)
Definition select_rooms (h : gmap loc RoomObj) (p : RoomObj -> bool)
    (l : list loc) : list loc :=
  List.filter (fun r => match h !! r with Some o => p o | None => false end) l.

(** Every reference in [l] denotes a room object. *)
Definition all_rooms (h : gmap loc RoomObj) (l : list loc) : Prop :=
  forall r, In r l -> is_Some (h !! r).

(** No room in [l] carries number [n]. *)
Definition number_free (h : gmap loc RoomObj) (l : list loc) (n : Z) : Prop :=
  forall r o, In r l -> h !! r = Some o -> room_number o <> n.

(** The line of a booking summary for room [r]. *)
Definition summary_line (h : gmap loc RoomObj) (r : loc) (line : Z * Q) : Prop :=
  exists o, h !! r = Some o /\ line = (room_number o, price_per_night o).

(** A room that is booked is on some customer's list. *)
Definition accounted (rh : gmap loc RoomObj) (ch : gmap loc CustomerObj) : Prop :=
  forall r o, rh !! r = Some o -> is_available o = false ->
    exists customer c, ch !! customer = Some c /\ In r (booked_rooms c).



(** The operations that write to the booking log. *)
Definition logs (op : Op) : Prop :=
  match op with
  | HotelBook _ _ _ _ | HotelLog _ _ _ _ => True
  | _ => False
  end.

(** * Properties *)

(** ** Running computations *)

Lemma bind_run {A B : Type} (c : M A) (k : A -> M B) (w w' : World) (a : A) :
  c w = (Ok a, w') -> bind c k w = k a w'.
Proof. intros H. unfold bind. rewrite H. reflexivity. Qed.

Lemma get_room_run (w : World) (r : loc) (o : RoomObj) :
  room_heap w !! r = Some o -> get_room r w = (Ok o, w).
Proof. intros H. unfold get_room. rewrite H. reflexivity. Qed.

Lemma get_customer_run (w : World) (c : loc) (o : CustomerObj) :
  cust_heap w !! c = Some o -> get_customer c w = (Ok o, w).
Proof. intros H. unfold get_customer. rewrite H. reflexivity. Qed.

(** ** Seasons *)

Lemma season_of_month_cases (m : Z) :
  1 <= m <= 12 ->
  m = 1 \/ m = 2 \/ m = 3 \/ m = 4 \/ m = 5 \/ m = 6 \/
  m = 7 \/ m = 8 \/ m = 9 \/ m = 10 \/ m = 11 \/ m = 12.
Proof. lia. Qed.


Lemma get_current_season_run (w : World) (s : string) :
  season_of_month (month (wall_clock w (ticks w))) = Some s ->
  get_current_season w = (Ok s, set_ticks S w).
Proof.
  intros H. unfold get_current_season, bind, datetime_now. rewrite H. reflexivity.
Qed.

(** C7: months 1 and 2 are winter, 3 to 5 spring, 6 to 8 summer, 9 to 11
    fall and 12 winter, both in the table and in what [get_current_season]
    returns when the clock shows that month; the multipliers are exactly
    0.8 for winter, 1.0 for spring, 1.3 for summer and 1.1 for fall. *)
Theorem season_resolution (m : Z) (w : World) :
  1 <= m <= 12 ->
  month (wall_clock w (ticks w)) = m ->
  let expected :=
    if m <=? 2 then "winter"
    else if m <=? 5 then "spring"
    else if m <=? 8 then "summer"
    else if m <=? 11 then "fall"
    else "winter" in
  season_of_month m = Some expected
  /\ get_current_season w = (Ok expected, set_ticks S w)
  /\ SEASON_MULTIPLIERS !! "winter" = Some (8 # 10)%Q
  /\ SEASON_MULTIPLIERS !! "spring" = Some (10 # 10)%Q
  /\ SEASON_MULTIPLIERS !! "summer" = Some (13 # 10)%Q
  /\ SEASON_MULTIPLIERS !! "fall" = Some (11 # 10)%Q.
Proof.
  intros Hm Hclock expected.
  assert (Hs : season_of_month m = Some expected).
  { subst expected.
    destruct (season_of_month_cases m Hm) as [-> | [-> | [-> | [-> | [-> | [-> | [-> | [-> | [-> | [-> | [-> | ->]]]]]]]]]]]; reflexivity. }
  split; [exact Hs |].
  split; [apply get_current_season_run; rewrite Hclock; exact Hs |].
  repeat split; reflexivity.
Qed.

Lemma season_resolution_witness :
  let w := mkWorld ∅ ∅ (mkHotel "Hotel" [] []) []
             (fun _ => mkDateTime 7 "2024-07-01T12:00:00") 0 in
  1 <= 7 <= 12
  /\ season_of_month 7 = Some "summer"
  /\ get_current_season w = (Ok "summer", set_ticks S w).
Proof.
  intros w. split; [lia |].
  destruct (season_resolution 7 w) as (H1 & H2 & _); [lia | reflexivity |].
  split; [exact H1 | exact H2].
Defined.

(** ** Room.calculate_price *)



(** ** Customer.pay_for_booking *)


Lemma Qle_bool_false (x y : Q) : Qle_bool x y = false <-> (y < x)%Q.
Proof.
  split.
  - intros H. apply Qnot_le_lt. intros Hle.
    apply Qle_bool_iff in Hle. congruence.
  - intros H. destruct (Qle_bool x y) eqn:E; [| reflexivity].
    apply Qle_bool_iff in E. exfalso. exact (Qlt_not_le _ _ H E).
Qed.






(** ** Customer.remove_room *)

Lemma py_list_remove_first (x : loc) (l : list loc) :
  In x l ->
  exists l1 l2, l = l1 ++ x :: l2 /\ ~ In x l1
                /\ py_list_remove x l = Some (l1 ++ l2).
Proof.
  induction l as [| y l IH]; intros Hin; [destruct Hin |].
  cbn [py_list_remove]. destruct (Pos.eqb_spec y x) as [-> | Hne].
  - exists [], l. repeat split. intros [].
  - destruct Hin as [Heq | Hin]; [congruence |].
    destruct (IH Hin) as (l1 & l2 & Hl & Hnot & Hrem).
    exists (y :: l1), l2. rewrite Hrem, Hl. repeat split.
    intros [Heq | Hin1]; [congruence | exact (Hnot Hin1)].
Qed.

Lemma py_list_remove_absent (x : loc) (l : list loc) :
  ~ In x l -> py_list_remove x l = None.
Proof.
  induction l as [| y l IH]; intros Hnot; [reflexivity |].
  cbn [py_list_remove]. destruct (Pos.eqb_spec y x) as [-> | Hne].
  - exfalso. apply Hnot. left. reflexivity.
  - rewrite IH; [reflexivity |]. intros Hin. apply Hnot. right. exact Hin.
Qed.

Lemma py_in_In (x : loc) (l : list loc) : py_in x l = true <-> In x l.
Proof.
  unfold py_in. rewrite existsb_exists. split.
  - intros (y & Hy & Heq). apply Pos.eqb_eq in Heq. subst. exact Hy.
  - intros H. exists x. split; [exact H | apply Pos.eqb_refl].
Qed.

Lemma count_occ_remove_middle (x : loc) (l1 l2 : list loc) :
  count_occ Pos.eq_dec (l1 ++ x :: l2) x
  = S (count_occ Pos.eq_dec (l1 ++ l2) x).
Proof.
  rewrite !count_occ_app. cbn [count_occ].
  destruct (Pos.eq_dec x x) as [_ | Hne]; [lia | congruence].
Qed.



(** ** Looking rooms up by number *)

Lemma find_in_pure (l : list loc) (n : Z) (w : World) :
  find_in l n w = (find_res (room_heap w) l n, w).
Proof.
  induction l as [| r l IH]; [reflexivity |].
  cbn [find_in find_res]. unfold bind, get_room.
  destruct (room_heap w !! r) as [o |]; [| reflexivity].
  destruct (room_number o =? n); [reflexivity | exact IH].
Qed.

Lemma find_room_pure (n : Z) (w : World) :
  Hotel._find_room n w = (find_res (room_heap w) (rooms (hotel w)) n, w).
Proof. unfold Hotel._find_room, bind, get_hotel. apply find_in_pure. Qed.

Lemma find_res_ok (h : gmap loc RoomObj) (l : list loc) (n : Z) (r : loc) :
  find_res h l n = Ok r ->
  In r l /\ exists o, h !! r = Some o /\ room_number o = n.
Proof.
  induction l as [| y l IH]; cbn [find_res]; [discriminate |].
  destruct (h !! y) as [o |] eqn:Ey; [| discriminate].
  destruct (Z.eqb_spec (room_number o) n) as [Heq | Hne].
  - intros [= <-]. split; [left; reflexivity | exists o; split; assumption].
  - intros H. destruct (IH H) as [Hin Ho]. split; [right; exact Hin | exact Ho].
Qed.

Lemma find_res_first (h : gmap loc RoomObj) (l : list loc) (r : loc) (o : RoomObj) :
  (forall y, In y l -> is_Some (h !! y)) ->
  (forall r1 r2 o1 o2, In r1 l -> In r2 l -> h !! r1 = Some o1 ->
     h !! r2 = Some o2 -> room_number o1 = room_number o2 -> r1 = r2) ->
  In r l -> h !! r = Some o ->
  find_res h l (room_number o) = Ok r.
Proof.
  intros Halloc Huniq Hin Ho.
  induction l as [| y l IH]; [destruct Hin |].
  cbn [find_res].
  destruct (Halloc y (or_introl eq_refl)) as [oy Hy]. rewrite Hy.
  destruct (Z.eqb_spec (room_number oy) (room_number o)) as [Heq | Hne].
  - f_equal. apply (Huniq y r oy o); auto. left. reflexivity.
  - destruct Hin as [-> | Hin]; [congruence |].
    apply IH; [| | exact Hin].
    + intros z Hz. apply Halloc. right. exact Hz.
    + intros r1 r2 o1 o2 H1 H2. apply Huniq; right; assumption.
Qed.

Lemma find_room_listed (w : World) (r : loc) (o : RoomObj) :
  hotel_rooms_ok w -> In r (rooms (hotel w)) -> room_heap w !! r = Some o ->
  Hotel._find_room (room_number o) w = (Ok r, w).
Proof.
  intros [Halloc Huniq] Hin Ho. rewrite find_room_pure.
  rewrite (find_res_first _ _ r o); auto.
Qed.

(** ** Hotel.book_room_for_customer *)

Ltac run_all :=
  unfold Hotel.book_room_for_customer, Hotel.cancel_booking, Hotel._find_room,
    Hotel.calculate_total_booking, Hotel.add_room, Hotel.show_available_rooms,
    Hotel.log_booking, Room.calculate_price, Room.book_room, Room.release_room,
    Customer.pay_for_booking, Customer.add_room, Customer.remove_room,
    Customer.show_booking_summary, get_current_season, season_multiplier,
    isinstance_Room, logging, put_customer, put_room, put_hotel, modify, get_room,
    get_customer, get_hotel, datetime_now, bind, ret, raise in *.

Ltac bool_facts :=
  repeat match goal with
  | H : negb _ = true |- _ => apply negb_true_iff in H
  | H : negb _ = false |- _ => apply negb_false_iff in H
  | H : (_ <=? _) = true |- _ => apply Z.leb_le in H
  | H : (_ <=? _) = false |- _ => apply Z.leb_gt in H
  | H : (_ <? _) = true |- _ => apply Z.ltb_lt in H
  | H : (_ <? _) = false |- _ => apply Z.ltb_ge in H
  | H : Qle_bool _ _ = true |- _ => apply Qle_bool_iff in H
  | H : Qle_bool _ _ = false |- _ => apply Qle_bool_false in H
  end.

Ltac known := first [eassumption | reflexivity].

(** Two results of one and the same lookup are equal. *)
Ltac same_lookups :=
  repeat match goal with
  | H1 : ?x = Ok ?a, H2 : ?x = Ok ?b |- _ => rewrite H1 in H2; simplify_eq
  | H1 : ?x = Some ?a, H2 : ?x = Some ?b |- _ => rewrite H1 in H2; simplify_eq
  end.

(** Split a run into its control-flow paths, one goal per path. *)
Ltac paths :=
  run_all;
  repeat (match goal with
          | H : context [find_in _ _ _] |- _ => rewrite find_in_pure in H
          end
          || (case_match; simplify_eq; cbn in * )).

(** Every run of [book_room_for_customer], whatever it returns or raises,
    either leaves all objects as they were, or has charged the customer,
    marked the room booked and listed it for the customer. *)
Lemma book_effect (customer : loc) (number nights guests : Z) (w w' : World)
    (res : Res bool) :
  Hotel.book_room_for_customer customer number nights guests w = (res, w') ->
  rooms (hotel w') = rooms (hotel w)
  /\ ((room_heap w' = room_heap w /\ cust_heap w' = cust_heap w
       /\ bookings_log (hotel w') = bookings_log (hotel w) /\ res <> Ok true)
      \/ (exists room o c total,
            find_res (room_heap w) (rooms (hotel w)) number = Ok room
            /\ room_heap w !! room = Some o
            /\ is_available o = true
            /\ 0 < guests <= max_guests o
            /\ 0 < nights
            /\ cust_heap w !! customer = Some c
            /\ (0 < total)%Q
            /\ (total <= budget c)%Q
            /\ room_heap w' = <[room := set_is_available false o]> (room_heap w)
            /\ cust_heap w' = <[customer := booked_customer c room total]> (cust_heap w)
            /\ ((res = Ok true
                 /\ exists e, bookings_log (hotel w') = bookings_log (hotel w) ++ [e])
                \/ ((exists e, res = Raise e)
                    /\ bookings_log (hotel w') = bookings_log (hotel w))))).
Proof.
  intros H. paths.
  all: try (split; [reflexivity | left; repeat split; try reflexivity; discriminate]).
  all: simplify_map_eq; bool_facts; try congruence.
  all: split; [reflexivity | right].
  all: eexists _, _, _, _.
  all: repeat (split; [first [eassumption | reflexivity | lia] |]).
  all: rewrite ?insert_insert_eq.
  all: split; [reflexivity |].
  - left. split; [reflexivity |]. eexists. reflexivity.
  - right. split; [eexists; reflexivity | reflexivity].
Qed.

Lemma calculate_total_booking_run (w : World) (number nights : Z) (room : loc)
    (o : RoomObj) (season : string) (multiplier : Q) :
  find_res (room_heap w) (rooms (hotel w)) number = Ok room ->
  room_heap w !! room = Some o ->
  0 < nights ->
  season_of_month (month (wall_clock w (ticks w))) = Some season ->
  SEASON_MULTIPLIERS !! season = Some multiplier ->
  Hotel.calculate_total_booking number nights w
  = (Ok (price_per_night o * multiplier * inject_Z nights)%Q, set_ticks S w).
Proof.
  intros Hfind Ho Hn Hs Hm. unfold Hotel.calculate_total_booking.
  assert (Hf : Hotel._find_room number w = (Ok room, w))
    by (rewrite find_room_pure, Hfind; reflexivity).
  rewrite (bind_run _ _ _ _ _ Hf).
  unfold Room.calculate_price. destruct (Z.leb_spec nights 0); [lia |].
  rewrite (bind_run _ _ _ _ _ (get_current_season_run w season Hs)).
  unfold season_multiplier. rewrite Hm.
  unfold bind, ret, get_room, set_ticks. cbn. rewrite Ho. reflexivity.
Qed.

Lemma book_false_cases (customer : loc) (number nights guests : Z) (w w' : World) :
  Hotel.book_room_for_customer customer number nights guests w = (Ok false, w') ->
  same_objects w w'
  /\ exists room o,
       find_res (room_heap w) (rooms (hotel w)) number = Ok room
       /\ room_heap w !! room = Some o
       /\ 0 < nights
       /\ (is_available o = false
           \/ max_guests o < guests
           \/ exists c season multiplier,
                cust_heap w !! customer = Some c
                /\ season_of_month (month (wall_clock w (ticks w))) = Some season
                /\ SEASON_MULTIPLIERS !! season = Some multiplier
                /\ (budget c < price_per_night o * multiplier * inject_Z nights)%Q).
Proof.
  intros H. paths.
  all: split; [repeat split |].
  all: same_lookups; bool_facts.
  all: eexists _, _; (split; [reflexivity |]); (split; [eassumption |]);
       (split; [lia |]).
  - left. assumption.
  - right. left. lia.
  - right. right. eexists _, _, _.
    repeat (split; [first [eassumption | reflexivity] |]). assumption.
Qed.

(** C2: when [book_room_for_customer] returns [False], every room object,
    every customer object and the hotel with its booking log are exactly what
    they were before the call; and it returns [False] only because the room
    is taken, the party is too large, or the customer cannot afford the
    price. *)
Theorem book_false_changes_nothing (customer : loc) (number nights guests : Z)
    (w w' : World) :
  Hotel.book_room_for_customer customer number nights guests w = (Ok false, w') ->
  room_heap w' = room_heap w
  /\ cust_heap w' = cust_heap w
  /\ hotel w' = hotel w
  /\ exists room o,
       Hotel._find_room number w = (Ok room, w)
       /\ room_heap w !! room = Some o
       /\ (is_available o = false
           \/ max_guests o < guests
           \/ exists c total,
                cust_heap w !! customer = Some c
                /\ Hotel.calculate_total_booking number nights w
                   = (Ok total, set_ticks S w)
                /\ (budget c < total)%Q).
Proof.
  intros H.
  destruct (book_false_cases _ _ _ _ _ _ H)
    as ((Hr & Hc & Hh) & room & o & Hfind & Ho & Hn & Hwhy).
  repeat (split; [assumption |]).
  exists room, o. rewrite find_room_pure, Hfind.
  split; [reflexivity |]. split; [exact Ho |].
  destruct Hwhy as [Hav | [Hmax | (c & s & m & Hcust & Hs & Hm & Hlt)]].
  - left. exact Hav.
  - right. left. exact Hmax.
  - right. right. exists c, (price_per_night o * m * inject_Z nights)%Q.
    split; [exact Hcust |]. split; [| exact Hlt].
    eapply calculate_total_booking_run; eassumption.
Qed.

Lemma book_false_changes_nothing_witness :
  let w' := snd (Hotel.book_room_for_customer 1%positive 101 2 2 sample_world) in
  Hotel.book_room_for_customer 1%positive 101 2 2 sample_world = (Ok false, w')
  /\ room_heap w' = room_heap sample_world
  /\ cust_heap w' = cust_heap sample_world
  /\ hotel w' = hotel sample_world.
Proof.
  intros w'.
  assert (H : Hotel.book_room_for_customer 1%positive 101 2 2 sample_world
              = (Ok false, w')) by reflexivity.
  split; [exact H |].
  destruct (book_false_changes_nothing _ _ _ _ _ _ H) as (Hr & Hc & Hh & _).
  repeat split; assumption.
Defined.

Lemma Room_init_valid (number : Z) (rtype : string) (price : Q) (maxg : Z)
    (w w' : World) (r : loc) :
  Room.init number rtype price maxg w = (Ok r, w') ->
  room_heap w !! r = None
  /\ w' = set_room_heap (fun h => <[r := mkRoom number rtype price true maxg]> h) w
  /\ room_valid (mkRoom number rtype price true maxg).
Proof.
  unfold Room.init, raise. intros H.
  destruct (existsb (String.eqb rtype) ["Single"; "Double"]) eqn:Et;
    cbn in H; [| discriminate].
  destruct (Qle_bool price 0) eqn:Ep; [discriminate |].
  destruct (Z.leb_spec maxg 0) as [| Hg]; [discriminate |].
  injection H as <- <-.
  split; [| split; [reflexivity |]].
  - apply not_elem_of_dom. apply is_fresh.
  - unfold room_valid. cbn. split; [| split; [| exact Hg]].
    + cbn in Et. destruct (String.eqb_spec rtype "Single"); [left; assumption |].
      destruct (String.eqb_spec rtype "Double"); [right; assumption | discriminate].
    + apply Qle_bool_false. exact Ep.
Qed.


Lemma calculate_total_booking_inv (w w' : World) (number nights : Z) (total : Q) :
  Hotel.calculate_total_booking number nights w = (Ok total, w') ->
  w' = set_ticks S w
  /\ 0 < nights
  /\ exists room o season multiplier,
       find_res (room_heap w) (rooms (hotel w)) number = Ok room
       /\ room_heap w !! room = Some o
       /\ season_of_month (month (wall_clock w (ticks w))) = Some season
       /\ SEASON_MULTIPLIERS !! season = Some multiplier
       /\ total = (price_per_night o * multiplier * inject_Z nights)%Q.
Proof.
  intros H. paths. bool_facts.
  split; [reflexivity |]. split; [assumption |].
  eexists _, _, _, _. repeat (split; [first [eassumption | reflexivity] |]).
  reflexivity.
Qed.


Lemma sample_world_rooms_ok : hotel_rooms_ok sample_world.
Proof.
  split.
  - intros r [<- | [<- | []]]; eexists; reflexivity.
  - intros r1 r2 o1 o2 [<- | [<- | []]] [<- | [<- | []]] H1 H2;
      try reflexivity; vm_compute in H1, H2; simplify_eq; cbn; discriminate.
Qed.



(** ** Hotel.cancel_booking *)

(** Rooms are never deallocated and never renumbered, so a lookup that
    succeeded keeps succeeding, with the same answer. *)
Lemma find_res_mono (h1 h2 : gmap loc RoomObj) (l : list loc) (n : Z) (r : loc) :
  (forall y o, h1 !! y = Some o ->
     exists o', h2 !! y = Some o' /\ room_number o' = room_number o) ->
  find_res h1 l n = Ok r -> find_res h2 l n = Ok r.
Proof.
  intros Hkeep. induction l as [| y l IH]; cbn [find_res]; [discriminate |].
  destruct (h1 !! y) as [o |] eqn:Ey; [| discriminate].
  destruct (Hkeep y o Ey) as (o' & -> & ->).
  destruct (room_number o =? n); [trivial | exact IH].
Qed.

Lemma find_res_app (h : gmap loc RoomObj) (l l' : list loc) (n : Z) (r : loc) :
  find_res h l n = Ok r -> find_res h (l ++ l') n = Ok r.
Proof.
  induction l as [| y l IH]; cbn [find_res app]; [discriminate |].
  destruct (h !! y) as [o |]; [| discriminate].
  destruct (room_number o =? n); [trivial | exact IH].
Qed.

Lemma py_list_remove_In (x : loc) (l l' : list loc) :
  py_list_remove x l = Some l' -> In x l.
Proof.
  intros H. destruct (in_dec Pos.eq_dec x l) as [Hin | Hnot]; [exact Hin |].
  rewrite (py_list_remove_absent x l Hnot) in H. discriminate.
Qed.

Lemma cancel_booking_run (w : World) (customer room : loc) (c : CustomerObj)
    (o : RoomObj) (l : list loc) (number : Z) :
  find_res (room_heap w) (rooms (hotel w)) number = Ok room ->
  room_heap w !! room = Some o ->
  cust_heap w !! customer = Some c ->
  py_list_remove room (booked_rooms c) = Some l ->
  Hotel.cancel_booking customer number w
  = (Ok tt, cancelled_world w customer room c o l number).
Proof.
  intros Hfind Ho Hc Hrem.
  assert (Hin : py_in room (booked_rooms c) = true).
  { apply py_in_In. exact (py_list_remove_In _ _ _ Hrem). }
  unfold Hotel.cancel_booking.
  assert (Hf : Hotel._find_room number w = (Ok room, w))
    by (rewrite find_room_pure, Hfind; reflexivity).
  rewrite (bind_run _ _ _ _ _ Hf).
  rewrite (bind_run _ _ _ _ _ (get_customer_run w customer c Hc)).
  rewrite Hin. cbn [negb].
  run_all. unfold set_cust_heap, set_room_heap, set_sink.
  repeat first [ rewrite lookup_insert_eq | rewrite Ho | rewrite Hc | rewrite Hrem
               | progress cbn ].
  reflexivity.
Qed.

(** Every run of [cancel_booking] either raises and leaves all objects as
    they were, or releases the room found under the number and drops its
    first occurrence from the customer's list. *)
Lemma cancel_effect (customer : loc) (number : Z) (w w' : World) (res : Res unit) :
  Hotel.cancel_booking customer number w = (res, w') ->
  hotel w' = hotel w
  /\ ((room_heap w' = room_heap w /\ cust_heap w' = cust_heap w
       /\ exists e, res = Raise e)
      \/ (exists room o c l,
            find_res (room_heap w) (rooms (hotel w)) number = Ok room
            /\ room_heap w !! room = Some o
            /\ cust_heap w !! customer = Some c
            /\ py_list_remove room (booked_rooms c) = Some l
            /\ res = Ok tt
            /\ w' = cancelled_world w customer room c o l number)).
Proof.
  intros H.
  destruct (find_res (room_heap w) (rooms (hotel w)) number) as [room | e] eqn:Hfind.
  2:{ paths. split; [reflexivity |]. left. repeat split. eexists. reflexivity. }
  destruct (find_res_ok _ _ _ _ Hfind) as (_ & o & Ho & _).
  destruct (cust_heap w !! customer) as [c |] eqn:Hc.
  2:{ paths. split; [reflexivity |]. left. repeat split. eexists. reflexivity. }
  destruct (py_list_remove room (booked_rooms c)) as [l |] eqn:Hrem.
  - rewrite (cancel_booking_run w customer room c o l number Hfind Ho Hc Hrem) in H.
    injection H as <- <-. split; [reflexivity |]. right.
    exists room, o, c, l. repeat split; assumption.
  - assert (Hin : py_in room (booked_rooms c) = false).
    { destruct (py_in room (booked_rooms c)) eqn:E; [| reflexivity].
      apply py_in_In in E.
      destruct (py_list_remove_first _ _ E) as (? & ? & _ & _ & Hsome).
      congruence. }
    unfold Hotel.cancel_booking in H.
    assert (Hf : Hotel._find_room number w = (Ok room, w))
      by (rewrite find_room_pure, Hfind; reflexivity).
    rewrite (bind_run _ _ _ _ _ Hf) in H.
    rewrite (bind_run _ _ _ _ _ (get_customer_run w customer c Hc)) in H.
    rewrite Hin in H. cbn in H. injection H as <- <-.
    split; [reflexivity |]. left. repeat split. eexists. reflexivity.
Qed.

(** C4: after [book_room_for_customer] returned [True], [cancel_booking]
    for the same customer and room number succeeds, makes that room
    available again and takes one occurrence of it (the first) out of the
    customer's list, which thereby returns to what it was before the booking
    when the room was not already listed; budget and loyalty points keep the
    values they had after the payment. *)
Theorem cancel_after_booking (customer : loc) (number nights guests : Z)
    (w w1 : World) :
  Hotel.book_room_for_customer customer number nights guests w = (Ok true, w1) ->
  exists w2 room o1 c0 c1 c2,
    Hotel.cancel_booking customer number w1 = (Ok tt, w2)
    /\ Hotel._find_room number w1 = (Ok room, w1)
    /\ room_heap w1 !! room = Some o1
    /\ is_available o1 = false
    /\ room_heap w2 !! room = Some (set_is_available true o1)
    /\ cust_heap w !! customer = Some c0
    /\ cust_heap w1 !! customer = Some c1
    /\ cust_heap w2 !! customer = Some c2
    /\ In room (booked_rooms c1)
    /\ py_list_remove room (booked_rooms c1) = Some (booked_rooms c2)
    /\ S (count_occ Pos.eq_dec (booked_rooms c2) room)
       = count_occ Pos.eq_dec (booked_rooms c1) room
    /\ (~ In room (booked_rooms c0) ->
        booked_rooms c2 = booked_rooms c0 /\ ~ In room (booked_rooms c2))
    /\ budget c2 = budget c1
    /\ loyalty_points c2 = loyalty_points c1
    /\ name c2 = name c1.
Proof.
  intros H.
  destruct (book_effect _ _ _ _ _ _ _ H) as (Hrooms & [(_ & _ & _ & Hne) | Hbooked]);
    [congruence |].
  destruct Hbooked as (room & o & c & total & Hfind & Ho & Hav & _ & _ & Hc & _ & _
                       & Hrh & Hch & _).
  assert (Hfind1 : find_res (room_heap w1) (rooms (hotel w1)) number = Ok room).
  { rewrite Hrooms, Hrh. apply (find_res_mono (room_heap w)); [| exact Hfind].
    intros y oy Hy. destruct (decide (room = y)) as [<- | Hne].
    - rewrite lookup_insert_eq. rewrite Ho in Hy. injection Hy as <-.
      eexists. split; reflexivity.
    - rewrite lookup_insert_ne by exact Hne. exists oy. split; [exact Hy | reflexivity]. }
  assert (Ho1 : room_heap w1 !! room = Some (set_is_available false o))
    by (rewrite Hrh; apply lookup_insert_eq).
  assert (Hc1 : cust_heap w1 !! customer = Some (booked_customer c room total))
    by (rewrite Hch; apply lookup_insert_eq).
  assert (Hin1 : In room (booked_rooms (booked_customer c room total))).
  { cbn. apply in_or_app. right. left. reflexivity. }
  destruct (py_list_remove_first _ _ Hin1) as (l1 & l2 & Hl & Hnot & Hrem).
  pose proof (cancel_booking_run w1 customer room _ _ _ number Hfind1 Ho1 Hc1 Hrem)
    as Hcancel.
  eexists _, room, _, c, _, (set_booked_rooms (l1 ++ l2) (booked_customer c room total)).
  split; [exact Hcancel |].
  split; [rewrite find_room_pure, Hfind1; reflexivity |].
  split; [exact Ho1 |].
  split; [reflexivity |].
  split; [cbn; apply lookup_insert_eq |].
  split; [exact Hc |].
  split; [exact Hc1 |].
  split; [cbn; apply lookup_insert_eq |].
  split; [exact Hin1 |].
  split; [exact Hrem |].
  split; [cbn [booked_rooms set_booked_rooms]; rewrite Hl; symmetry;
          apply count_occ_remove_middle |].
  split; [| repeat split].
  intros Hfresh. cbn [booked_rooms set_booked_rooms booked_customer] in *.
  assert (Hl1 : l1 = booked_rooms c /\ l2 = []).
  { clear - Hl Hnot Hfresh. revert l1 Hl Hnot.
    induction (booked_rooms c) as [| y l IH]; intros l1 Hl Hnot.
    - destruct l1 as [| z l1]; cbn in Hl.
      + injection Hl as <-. split; reflexivity.
      + injection Hl as -> Hl. destruct l1; discriminate.
    - destruct l1 as [| z l1]; cbn in Hl.
      + injection Hl as -> _. exfalso. apply Hfresh. left. reflexivity.
      + injection Hl as <- Hl.
        destruct (IH (fun Hin => Hfresh (or_intror Hin)) l1 Hl
                    (fun Hin => Hnot (or_intror Hin))) as [-> ->].
        split; reflexivity. }
  destruct Hl1 as [-> ->]. rewrite app_nil_r. split; [reflexivity | exact Hfresh].
Qed.

Lemma cancel_after_booking_witness :
  let w1 := snd (Hotel.book_room_for_customer 1%positive 101 2 1 sample_world) in
  Hotel.book_room_for_customer 1%positive 101 2 1 sample_world = (Ok true, w1)
  /\ exists w2 room o1 c0 c1 c2,
       Hotel.cancel_booking 1%positive 101 w1 = (Ok tt, w2)
       /\ Hotel._find_room 101 w1 = (Ok room, w1)
       /\ room_heap w1 !! room = Some o1
       /\ is_available o1 = false
       /\ room_heap w2 !! room = Some (set_is_available true o1)
       /\ cust_heap sample_world !! 1%positive = Some c0
       /\ cust_heap w1 !! 1%positive = Some c1
       /\ cust_heap w2 !! 1%positive = Some c2
       /\ In room (booked_rooms c1)
       /\ py_list_remove room (booked_rooms c1) = Some (booked_rooms c2)
       /\ S (count_occ Pos.eq_dec (booked_rooms c2) room)
          = count_occ Pos.eq_dec (booked_rooms c1) room
       /\ (~ In room (booked_rooms c0) ->
           booked_rooms c2 = booked_rooms c0 /\ ~ In room (booked_rooms c2))
       /\ budget c2 = budget c1
       /\ loyalty_points c2 = loyalty_points c1
       /\ name c2 = name c1.
Proof.
  intros w1.
  assert (H : Hotel.book_room_for_customer 1%positive 101 2 1 sample_world
              = (Ok true, w1)) by reflexivity.
  split; [exact H |].
  exact (cancel_after_booking 1%positive 101 2 1 sample_world w1 H).
Defined.

(** ** Sessions: sequences of public operations *)

(** *** What each method can do to the objects *)

Lemma any_room_number_state (l : list loc) (n : Z) (w : World) :
  snd (any_room_number l n w) = w.
Proof.
  induction l as [| r l IH]; [reflexivity |].
  cbn [any_room_number]. unfold bind, get_room.
  destruct (room_heap w !! r) as [o |]; [| reflexivity].
  destruct (room_number o =? n); [reflexivity | exact IH].
Qed.

Lemma filter_rooms_state (p : RoomObj -> bool) (l : list loc) (w : World) :
  snd (filter_rooms p l w) = w.
Proof.
  induction l as [| r l IH]; [reflexivity |].
  cbn [filter_rooms]. unfold bind, get_room, ret.
  destruct (room_heap w !! r) as [o |]; [| reflexivity].
  destruct (filter_rooms p l w) as [[rest | e] w0]; cbn in IH; subst; reflexivity.
Qed.

Lemma summary_lines_state (l : list loc) (w : World) :
  snd (summary_lines l w) = w.
Proof.
  induction l as [| r l IH]; [reflexivity |].
  cbn [summary_lines]. unfold bind, get_room, ret.
  destruct (room_heap w !! r) as [o |]; [| reflexivity].
  destruct (summary_lines l w) as [[rest | e] w0]; cbn in IH; subst; reflexivity.
Qed.

Lemma same_objects_refl (w : World) : same_objects w w.
Proof. repeat split. Qed.

Lemma Room_init_effect (n : Z) (t : string) (p : Q) (g : Z) (w : World) :
  exec (NewRoom n t p g) w = w
  \/ exists r, room_heap w !! r = None
               /\ exec (NewRoom n t p g) w
                  = set_room_heap (fun h => <[r := mkRoom n t p true g]> h) w.
Proof.
  cbn [exec]. destruct (Room.init n t p g w) as [[r | e] w'] eqn:E.
  - right. exists r. destruct (Room_init_valid _ _ _ _ _ _ _ E) as (Hfresh & -> & _).
    split; [exact Hfresh | reflexivity].
  - left. unfold Room.init, raise in E.
    repeat (case_match; simplify_eq); reflexivity.
Qed.

Lemma Customer_init_effect (n : string) (b : Q) (w : World) :
  exec (NewCustomer n b) w = w
  \/ exists c, cust_heap w !! c = None
               /\ (0 < b)%Q
               /\ exec (NewCustomer n b) w
                  = set_cust_heap (fun h => <[c := mkCustomer n b [] 0]> h) w.
Proof.
  cbn [exec]. unfold Customer.init, raise.
  repeat (case_match; simplify_eq); try (left; reflexivity).
  right. eexists. split; [| split; [| reflexivity]].
  - apply not_elem_of_dom. apply is_fresh.
  - apply Qle_bool_false. assumption.
Qed.

Lemma readonly_effect (op : Op) (w : World) :
  match op with
  | RoomPrice _ _ | CustSummary _ | HotelShow _ | HotelTotal _ _ => True
  | _ => False
  end ->
  same_objects w (exec op w).
Proof.
  destruct op; intros []; cbn [exec].
  - destruct (Room.calculate_price room nights w) as [res w'] eqn:E.
    paths; repeat split.
  - unfold Customer.show_booking_summary, bind, get_customer, raise, ret.
    destruct (cust_heap w !! customer); [| apply same_objects_refl].
    destruct (booked_rooms c) as [| r0 l]; [apply same_objects_refl |].
    pose proof (summary_lines_state (r0 :: l) w) as Hs.
    destruct (summary_lines (r0 :: l) w) as [[ls | e] w']; cbn in Hs |- *;
      subst; apply same_objects_refl.
  - unfold Hotel.show_available_rooms, bind, get_hotel, raise, ret.
    pose proof (filter_rooms_state is_available (rooms (hotel w)) w) as Hs.
    destruct (filter_rooms is_available (rooms (hotel w)) w) as [[av | e] w'];
      cbn in Hs |- *; subst; [| apply same_objects_refl].
    destruct rtype as [t |]; [| apply same_objects_refl].
    destruct (py_not_str t); [apply same_objects_refl |].
    destruct (negb _); [apply same_objects_refl |].
    rewrite filter_rooms_state. apply same_objects_refl.
  - destruct (Hotel.calculate_total_booking number nights w) as [res w'] eqn:E.
    destruct res as [total | e].
    + destruct (calculate_total_booking_inv _ _ _ _ _ E) as (-> & _).
      repeat split.
    + paths; repeat split.
Qed.

Lemma Hotel_add_room_effect (room : loc) (w : World) :
  room_heap (exec (HotelAdd room) w) = room_heap w
  /\ cust_heap (exec (HotelAdd room) w) = cust_heap w
  /\ bookings_log (hotel (exec (HotelAdd room) w)) = bookings_log (hotel w)
  /\ (rooms (hotel (exec (HotelAdd room) w)) = rooms (hotel w)
      \/ rooms (hotel (exec (HotelAdd room) w)) = rooms (hotel w) ++ [room]).
Proof.
  cbn [exec]. unfold Hotel.add_room, bind, isinstance_Room, get_hotel, get_room,
    raise, put_hotel, modify.
  destruct (room_heap w !! room) as [o |] eqn:Ho; cbn.
  2:{ repeat split. left. reflexivity. }
  rewrite Ho.
  pose proof (any_room_number_state (rooms (hotel w)) (room_number o) w) as Hs.
  destruct (any_room_number (rooms (hotel w)) (room_number o) w) as [[[|] | e] w'];
    cbn in Hs |- *; subst; repeat split; (left; reflexivity) || (right; reflexivity).
Qed.

Lemma Hotel_log_booking_effect (customer room : loc) (x : Q) (k : Z) (w : World) :
  room_heap (exec (HotelLog customer room x k) w) = room_heap w
  /\ cust_heap (exec (HotelLog customer room x k) w) = cust_heap w
  /\ rooms (hotel (exec (HotelLog customer room x k) w)) = rooms (hotel w).
Proof.
  cbn [exec].
  destruct (Hotel.log_booking customer room x k w) as [res w'] eqn:E.
  paths; repeat split.
Qed.

Lemma Room_book_room_effect (room : loc) (w : World) :
  cust_heap (exec (RoomBook room) w) = cust_heap w
  /\ hotel (exec (RoomBook room) w) = hotel w
  /\ (room_heap (exec (RoomBook room) w) = room_heap w
      \/ exists o, room_heap w !! room = Some o
                   /\ room_heap (exec (RoomBook room) w)
                      = <[room := set_is_available false o]> (room_heap w)).
Proof.
  cbn [exec].
  destruct (Room.book_room room w) as [res w'] eqn:E.
  paths; repeat split; try (left; reflexivity).
  right. eexists. split; [known | reflexivity].
Qed.

Lemma Room_release_room_effect (room : loc) (w : World) :
  cust_heap (exec (RoomRelease room) w) = cust_heap w
  /\ hotel (exec (RoomRelease room) w) = hotel w
  /\ (room_heap (exec (RoomRelease room) w) = room_heap w
      \/ exists o, room_heap w !! room = Some o
                   /\ room_heap (exec (RoomRelease room) w)
                      = <[room := set_is_available true o]> (room_heap w)).
Proof.
  cbn [exec].
  destruct (Room.release_room room w) as [res w'] eqn:E.
  paths; repeat split; try (left; reflexivity).
  right. eexists. split; [known | reflexivity].
Qed.

Lemma Customer_add_room_effect (customer room : loc) (w : World) :
  room_heap (exec (CustAdd customer room) w) = room_heap w
  /\ hotel (exec (CustAdd customer room) w) = hotel w
  /\ (cust_heap (exec (CustAdd customer room) w) = cust_heap w
      \/ exists c, cust_heap w !! customer = Some c
                   /\ cust_heap (exec (CustAdd customer room) w)
                      = <[customer := set_booked_rooms (booked_rooms c ++ [room]) c]>
                          (cust_heap w)).
Proof.
  cbn [exec].
  destruct (Customer.add_room customer room w) as [res w'] eqn:E.
  paths; repeat split; try (left; reflexivity).
  right. eexists. split; [known | reflexivity].
Qed.

Lemma Customer_remove_room_effect (customer room : loc) (w : World) :
  room_heap (exec (CustRemove customer room) w) = room_heap w
  /\ hotel (exec (CustRemove customer room) w) = hotel w
  /\ (cust_heap (exec (CustRemove customer room) w) = cust_heap w
      \/ exists c l, cust_heap w !! customer = Some c
                     /\ py_list_remove room (booked_rooms c) = Some l
                     /\ cust_heap (exec (CustRemove customer room) w)
                        = <[customer := set_booked_rooms l c]> (cust_heap w)).
Proof.
  cbn [exec].
  destruct (Customer.remove_room customer room w) as [res w'] eqn:E.
  paths; repeat split; try (left; reflexivity).
  right. eexists _, _. split; [known |]. split; [known | reflexivity].
Qed.

Lemma Customer_pay_effect (customer : loc) (x : Q) (w : World) :
  room_heap (exec (CustPay customer x) w) = room_heap w
  /\ hotel (exec (CustPay customer x) w) = hotel w
  /\ (cust_heap (exec (CustPay customer x) w) = cust_heap w
      \/ exists c, cust_heap w !! customer = Some c
                   /\ (0 < x)%Q /\ (x <= budget c)%Q
                   /\ cust_heap (exec (CustPay customer x) w)
                      = <[customer := mkCustomer (name c) (budget c - x)%Q
                                        (booked_rooms c)
                                        (loyalty_points c + py_int (x / 100)%Q)]>
                          (cust_heap w)).
Proof.
  cbn [exec].
  destruct (Customer.pay_for_booking customer x w) as [res w'] eqn:E.
  paths; repeat split; try (left; reflexivity).
  all: simplify_map_eq; bool_facts.
  right. eexists. split; [known |]. split; [assumption |].
  split; [assumption |]. rewrite insert_insert_eq. reflexivity.
Qed.

(** ** Booking the same room twice *)

Lemma persist_same_heap (w w' : World) (l' : list loc) :
  room_heap w' = room_heap w ->
  rooms (hotel w') = rooms (hotel w) ++ l' ->
  rooms_persist w w'.
Proof.
  intros Hh Hl. split; [| exists l'; exact Hl].
  intros y o Hy. exists o. rewrite Hh. repeat split; auto.
Qed.

Lemma persist_booked (w w' : World) (r : loc) (o : RoomObj) :
  room_heap w !! r = Some o ->
  room_heap w' = <[r := set_is_available false o]> (room_heap w) ->
  rooms (hotel w') = rooms (hotel w) ->
  rooms_persist w w'.
Proof.
  intros Ho Hh Hl. split; [| exists []; rewrite app_nil_r; exact Hl].
  intros y oy Hy. rewrite Hh. destruct (decide (r = y)) as [<- | Hne].
  - rewrite lookup_insert_eq. rewrite Ho in Hy. injection Hy as <-.
    eexists. repeat split.
  - rewrite lookup_insert_ne by exact Hne. exists oy. repeat split; auto.
Qed.

Lemma persist_fresh (w w' : World) (r : loc) (o : RoomObj) :
  room_heap w !! r = None ->
  room_heap w' = <[r := o]> (room_heap w) ->
  rooms (hotel w') = rooms (hotel w) ->
  rooms_persist w w'.
Proof.
  intros Hfresh Hh Hl. split; [| exists []; rewrite app_nil_r; exact Hl].
  intros y oy Hy. rewrite Hh. rewrite lookup_insert_ne by congruence.
  exists oy. repeat split; auto.
Qed.

Lemma exec_rooms_persist (op : Op) (w : World) :
  ~ releases op -> rooms_persist w (exec op w).
Proof.
  destruct op; cbn [releases]; intros Hkeep; try (exfalso; exact (Hkeep I)).
  - destruct (Room_init_effect number rtype price maxg w) as [-> | (r & Hr & ->)].
    + apply persist_same_heap with []; [reflexivity | symmetry; apply app_nil_r].
    + eapply persist_fresh; [exact Hr | reflexivity | reflexivity].
  - destruct (Customer_init_effect cname cbudget w) as [-> | (c & _ & _ & ->)];
      apply persist_same_heap with []; try reflexivity; symmetry; apply app_nil_r.
  - destruct (Room_book_room_effect room w) as (_ & Hh & [Hr | (o & Ho & Hr)]).
    + apply persist_same_heap with []; [exact Hr | rewrite Hh, app_nil_r; reflexivity].
    + eapply persist_booked; [exact Ho | exact Hr | rewrite Hh; reflexivity].
  - destruct (readonly_effect (RoomPrice room nights) w I) as (Hr & _ & Hh).
    apply persist_same_heap with []; [exact Hr | rewrite Hh, app_nil_r; reflexivity].
  - destruct (Customer_add_room_effect customer room w) as (Hr & Hh & _).
    apply persist_same_heap with []; [exact Hr | rewrite Hh, app_nil_r; reflexivity].
  - destruct (Customer_remove_room_effect customer room w) as (Hr & Hh & _).
    apply persist_same_heap with []; [exact Hr | rewrite Hh, app_nil_r; reflexivity].
  - destruct (Customer_pay_effect customer total_price w) as (Hr & Hh & _).
    apply persist_same_heap with []; [exact Hr | rewrite Hh, app_nil_r; reflexivity].
  - destruct (readonly_effect (CustSummary customer) w I) as (Hr & _ & Hh).
    apply persist_same_heap with []; [exact Hr | rewrite Hh, app_nil_r; reflexivity].
  - destruct (Hotel_add_room_effect room w) as (Hr & _ & _ & [Hl | Hl]).
    + apply persist_same_heap with []; [exact Hr | rewrite Hl, app_nil_r; reflexivity].
    + apply persist_same_heap with [room]; [exact Hr | exact Hl].
  - destruct (readonly_effect (HotelShow rtype) w I) as (Hr & _ & Hh).
    apply persist_same_heap with []; [exact Hr | rewrite Hh, app_nil_r; reflexivity].
  - destruct (readonly_effect (HotelTotal number nights) w I) as (Hr & _ & Hh).
    apply persist_same_heap with []; [exact Hr | rewrite Hh, app_nil_r; reflexivity].
  - destruct (Hotel_log_booking_effect customer room total_price nights w)
      as (Hr & _ & Hl).
    apply persist_same_heap with []; [exact Hr | rewrite Hl, app_nil_r; reflexivity].
  - cbn [exec].
    destruct (Hotel.book_room_for_customer customer number nights guests w)
      as [res w'] eqn:E.
    destruct (book_effect _ _ _ _ _ _ _ E) as (Hl & [(Hr & _) | Hb]); cbn [snd].
    + apply persist_same_heap with []; [exact Hr | rewrite Hl, app_nil_r; reflexivity].
    + destruct Hb as (r & o & c & total & _ & Ho & _ & _ & _ & _ & _ & _ & Hr & _).
      eapply persist_booked; [exact Ho | exact Hr | exact Hl].
Qed.

Lemma taken_persists (number : Z) (room : loc) (w w' : World) :
  rooms_persist w w' -> taken number room w -> taken number room w'.
Proof.
  intros (Hkeep & l' & Hl) (Hfind & o & Ho & Hav). split.
  - rewrite Hl. apply find_res_app. apply (find_res_mono (room_heap w)); [| exact Hfind].
    intros y oy Hy. destruct (Hkeep y oy Hy) as (o' & Ho' & Hn & _).
    exists o'. split; assumption.
  - destruct (Hkeep room o Ho) as (o' & Ho' & _ & Hstill).
    exists o'. split; [exact Ho' | exact (Hstill Hav)].
Qed.

Lemma taken_exec_all (number : Z) (room : loc) (ops : list Op) (w : World) :
  Forall (fun op => ~ releases op) ops ->
  taken number room w -> taken number room (exec_all ops w).
Proof.
  revert w. induction ops as [| op ops IH]; intros w Hops Ht; [exact Ht |].
  inversion Hops as [| ? ? Hop Hrest]; subst. cbn [exec_all fold_left].
  apply IH; [exact Hrest |].
  apply (taken_persists number room w); [apply exec_rooms_persist; exact Hop | exact Ht].
Qed.

Lemma book_taken_room (customer : loc) (number nights guests : Z) (room : loc)
    (w : World) :
  taken number room w -> 0 < nights -> 0 < guests ->
  Hotel.book_room_for_customer customer number nights guests w
  = (Ok false,
     set_sink (fun s => s ++ [(WARNING, Booking_failed_not_available number)]) w).
Proof.
  intros (Hfind & o & Ho & Hav) Hn Hg.
  destruct (find_res_ok _ _ _ _ Hfind) as (_ & o' & Ho' & Hnum).
  rewrite Ho in Ho'. injection Ho' as <-.
  unfold Hotel.book_room_for_customer.
  destruct (Z.leb_spec nights 0); [lia |].
  destruct (Z.leb_spec guests 0); [lia |].
  assert (Hf : Hotel._find_room number w = (Ok room, w))
    by (rewrite find_room_pure, Hfind; reflexivity).
  rewrite (bind_run _ _ _ _ _ Hf).
  rewrite (bind_run _ _ _ _ _ (get_room_run w room o Ho)).
  rewrite Hav, Hnum. reflexivity.
Qed.

(** C5: once [book_room_for_customer] has returned [True] for a room number,
    a later call for the same number with positive nights and guests, by any
    customer and after any operations that release no room, returns
    [False]: it raises nothing, and it leaves every object as it was. *)
Theorem second_booking_rejected (customer customer2 : loc)
    (number nights guests nights2 guests2 : Z) (w w1 : World) (ops : list Op) :
  Hotel.book_room_for_customer customer number nights guests w = (Ok true, w1) ->
  Forall (fun op => ~ releases op) ops ->
  0 < nights2 -> 0 < guests2 ->
  exists w2,
    Hotel.book_room_for_customer customer2 number nights2 guests2 (exec_all ops w1)
    = (Ok false, w2)
    /\ same_objects (exec_all ops w1) w2.
Proof.
  intros H Hops Hn Hg.
  destruct (book_effect _ _ _ _ _ _ _ H) as (Hrooms & [(_ & _ & _ & Hne) | Hb]);
    [congruence |].
  destruct Hb as (room & o & c & total & Hfind & Ho & _ & _ & _ & _ & _ & _ & Hrh & _).
  assert (Ht : taken number room w1).
  { apply (taken_persists number room (set_room_heap (fun h => <[room := set_is_available false o]> h) w)).
    - apply persist_same_heap with []; [exact Hrh | rewrite Hrooms, app_nil_r; reflexivity].
    - split.
      + cbn. apply (find_res_mono (room_heap w)); [| exact Hfind].
        intros y oy Hy. destruct (decide (room = y)) as [<- | Hneq].
        * rewrite lookup_insert_eq. rewrite Ho in Hy. injection Hy as <-.
          eexists. split; reflexivity.
        * rewrite lookup_insert_ne by exact Hneq. exists oy. split; [exact Hy | reflexivity].
      + eexists. cbn. split; [apply lookup_insert_eq | reflexivity]. }
  eexists. split.
  - apply book_taken_room with room; [| exact Hn | exact Hg].
    apply taken_exec_all; assumption.
  - repeat split.
Qed.

Lemma second_booking_rejected_witness :
  let w1 := snd (Hotel.book_room_for_customer 1%positive 101 2 1 sample_world) in
  let ops := [NewCustomer "gio" 900; HotelBook 2%positive 102 1 2] in
  Hotel.book_room_for_customer 1%positive 101 2 1 sample_world = (Ok true, w1)
  /\ exists w2,
       Hotel.book_room_for_customer 2%positive 101 3 1 (exec_all ops w1)
       = (Ok false, w2)
       /\ same_objects (exec_all ops w1) w2.
Proof.
  intros w1 ops.
  assert (H : Hotel.book_room_for_customer 1%positive 101 2 1 sample_world
              = (Ok true, w1)) by reflexivity.
  split; [exact H |].
  apply (second_booking_rejected 1%positive 2%positive 101 2 1 3 1 sample_world w1 ops H).
  - repeat constructor; intros [].
  - lia.
  - lia.
Defined.

(** ** The customer's budget *)











(** ** Booked rooms are unavailable *)

Lemma consistent_empty : consistent ∅ ∅.
Proof.
  split.
  - intros customer c room H. rewrite lookup_empty in H. discriminate.
  - intros customer c H. rewrite lookup_empty in H. discriminate.
  - intros c1 c2 o1 o2 room H. rewrite lookup_empty in H. discriminate.
Qed.

Lemma consistent_new_room (rh : gmap loc RoomObj) (ch : gmap loc CustomerObj)
    (r : loc) (o : RoomObj) :
  rh !! r = None -> consistent rh ch -> consistent (<[r := o]> rh) ch.
Proof.
  intros Hfresh [Ha Hb Hc]. split; [| exact Hb | exact Hc].
  intros customer c room Hcust Hin.
  destruct (Ha customer c room Hcust Hin) as (o' & Ho' & Hav).
  exists o'. rewrite lookup_insert_ne by congruence. split; assumption.
Qed.

Lemma consistent_new_customer (rh : gmap loc RoomObj) (ch : gmap loc CustomerObj)
    (c0 : loc) (n : string) (b : Q) (p : Z) :
  ch !! c0 = None -> consistent rh ch ->
  consistent rh (<[c0 := mkCustomer n b [] p]> ch).
Proof.
  intros Hfresh [Ha Hb Hc]. split.
  - intros customer c room Hcust Hin.
    apply lookup_insert_Some in Hcust as [[_ <-] | [_ Hcust]]; [destruct Hin |].
    exact (Ha customer c room Hcust Hin).
  - intros customer c Hcust.
    apply lookup_insert_Some in Hcust as [[_ <-] | [_ Hcust]];
      [apply List.NoDup_nil |].
    exact (Hb customer c Hcust).
  - intros c1 c2 o1 o2 room H1 H2 Hin1 Hin2.
    apply lookup_insert_Some in H1 as [[_ <-] | [_ H1]]; [destruct Hin1 |].
    apply lookup_insert_Some in H2 as [[_ <-] | [_ H2]]; [destruct Hin2 |].
    exact (Hc c1 c2 o1 o2 room H1 H2 Hin1 Hin2).
Qed.

Lemma consistent_book (rh : gmap loc RoomObj) (ch : gmap loc CustomerObj)
    (customer room : loc) (c : CustomerObj) (o : RoomObj) (total : Q) :
  rh !! room = Some o -> is_available o = true ->
  ch !! customer = Some c ->
  consistent rh ch ->
  consistent (<[room := set_is_available false o]> rh)
             (<[customer := booked_customer c room total]> ch).
Proof.
  intros Ho Hav Hcust [Ha Hb Hc].
  assert (Hfree : forall c1 o1, ch !! c1 = Some o1 -> ~ In room (booked_rooms o1)).
  { intros c1 o1 H1 Hin. destruct (Ha c1 o1 room H1 Hin) as (o' & Ho' & Hav').
    rewrite Ho in Ho'. injection Ho' as <-. congruence. }
  assert (Hstill : forall room',
            (exists o', rh !! room' = Some o' /\ is_available o' = false) ->
            exists o', <[room := set_is_available false o]> rh !! room' = Some o'
                       /\ is_available o' = false).
  { intros room' (o' & Ho' & Hav'). destruct (decide (room = room')) as [<- | Hne].
    - eexists. rewrite lookup_insert_eq. split; reflexivity.
    - exists o'. rewrite lookup_insert_ne by exact Hne. split; assumption. }
  split.
  - intros customer' c' room' Hcust' Hin.
    apply lookup_insert_Some in Hcust' as [[_ <-] | [_ Hcust']].
    + cbn in Hin. apply in_app_or in Hin as [Hin | [<- | []]].
      * apply Hstill. exact (Ha customer c room' Hcust Hin).
      * eexists. rewrite lookup_insert_eq. split; reflexivity.
    + apply Hstill. exact (Ha customer' c' room' Hcust' Hin).
  - intros customer' c' Hcust'.
    apply lookup_insert_Some in Hcust' as [[_ <-] | [_ Hcust']].
    + cbn. apply List.NoDup_app.
      * exact (Hb customer c Hcust).
      * apply List.NoDup_cons; [intros [] | apply List.NoDup_nil].
      * intros x Hx [<- | []]. exact (Hfree customer c Hcust Hx).
    + exact (Hb customer' c' Hcust').
  - intros c1 c2 o1 o2 room' H1 H2 Hin1 Hin2.
    apply lookup_insert_Some in H1 as [[<- <-] | [Hne1 H1]];
      apply lookup_insert_Some in H2 as [[<- <-] | [Hne2 H2]].
    + reflexivity.
    + cbn in Hin1. apply in_app_or in Hin1 as [Hin1 | [<- | []]].
      * exact (Hc customer c2 c o2 room' Hcust H2 Hin1 Hin2).
      * exfalso. exact (Hfree c2 o2 H2 Hin2).
    + cbn in Hin2. apply in_app_or in Hin2 as [Hin2 | [<- | []]].
      * exact (Hc c1 customer o1 c room' H1 Hcust Hin1 Hin2).
      * exfalso. exact (Hfree c1 o1 H1 Hin1).
    + exact (Hc c1 c2 o1 o2 room' H1 H2 Hin1 Hin2).
Qed.

Lemma consistent_cancel (rh : gmap loc RoomObj) (ch : gmap loc CustomerObj)
    (customer room : loc) (c : CustomerObj) (o : RoomObj) (l : list loc) :
  ch !! customer = Some c ->
  py_list_remove room (booked_rooms c) = Some l ->
  consistent rh ch ->
  consistent (<[room := set_is_available true o]> rh)
             (<[customer := set_booked_rooms l c]> ch).
Proof.
  intros Hcust Hrem [Ha Hb Hc].
  pose proof (py_list_remove_In _ _ _ Hrem) as Hin.
  destruct (py_list_remove_first _ _ Hin) as (l1 & l2 & Hl & Hnot & Hrem').
  rewrite Hrem in Hrem'. injection Hrem' as ->.
  pose proof (Hb customer c Hcust) as Hnd. rewrite Hl in Hnd.
  assert (Hsub : forall x, In x (l1 ++ l2) -> In x (booked_rooms c) /\ x <> room).
  { intros x Hx. split.
    - rewrite Hl. apply in_app_or in Hx as [Hx | Hx]; apply in_or_app;
        [left | right; right]; exact Hx.
    - intros ->. apply List.NoDup_remove_2 in Hnd. exact (Hnd Hx). }
  split.
  - intros customer' c' room' Hcust' Hin'.
    apply lookup_insert_Some in Hcust' as [[_ <-] | [Hne Hcust']].
    + cbn in Hin'. destruct (Hsub room' Hin') as [Hold Hneq].
      rewrite lookup_insert_ne by congruence.
      exact (Ha customer c room' Hcust Hold).
    + assert (Hneq : room' <> room).
      { intros ->. apply Hne. exact (Hc customer customer' c c' room Hcust Hcust' Hin Hin'). }
      rewrite lookup_insert_ne by congruence.
      exact (Ha customer' c' room' Hcust' Hin').
  - intros customer' c' Hcust'.
    apply lookup_insert_Some in Hcust' as [[_ <-] | [_ Hcust']].
    + cbn. exact (List.NoDup_remove_1 _ _ _ Hnd).
    + exact (Hb customer' c' Hcust').
  - intros c1 c2 o1 o2 room' H1 H2 Hin1 Hin2.
    apply lookup_insert_Some in H1 as [[<- <-] | [Hne1 H1]];
      apply lookup_insert_Some in H2 as [[<- <-] | [Hne2 H2]].
    + reflexivity.
    + cbn in Hin1. destruct (Hsub room' Hin1) as [Hold _].
      exact (Hc customer c2 c o2 room' Hcust H2 Hold Hin2).
    + cbn in Hin2. destruct (Hsub room' Hin2) as [Hold _].
      exact (Hc c1 customer o1 c room' H1 Hcust Hin1 Hold).
    + exact (Hc c1 c2 o1 o2 room' H1 H2 Hin1 Hin2).
Qed.

Lemma exec_consistent (op : Op) (w : World) :
  hotel_op op ->
  consistent (room_heap w) (cust_heap w) ->
  consistent (room_heap (exec op w)) (cust_heap (exec op w)).
Proof.
  intros Hop Hinv. destruct op; cbn [hotel_op] in Hop; try destruct Hop.
  - destruct (Room_init_effect number rtype price maxg w) as [-> | (r & Hr & ->)];
      [exact Hinv |].
    cbn. apply consistent_new_room; assumption.
  - destruct (Customer_init_effect cname cbudget w) as [-> | (c0 & Hfresh & _ & ->)];
      [exact Hinv |].
    cbn. apply consistent_new_customer; assumption.
  - destruct (Hotel_add_room_effect room w) as (-> & -> & _). exact Hinv.
  - destruct (readonly_effect (HotelShow rtype) w I) as (-> & -> & _). exact Hinv.
  - destruct (readonly_effect (HotelTotal number nights) w I) as (-> & -> & _).
    exact Hinv.
  - destruct (Hotel_log_booking_effect customer room total_price nights w)
      as (-> & -> & _).
    exact Hinv.
  - cbn [exec].
    destruct (Hotel.book_room_for_customer customer number nights guests w)
      as [res w'] eqn:E.
    cbn [snd].
    destruct (book_effect _ _ _ _ _ _ _ E) as (_ & [(-> & -> & _) | Hb]);
      [exact Hinv |].
    destruct Hb as (r & o & c & total & _ & Ho & Hav & _ & _ & Hc & _ & _ & -> & -> & _).
    apply consistent_book; assumption.
  - cbn [exec].
    destruct (Hotel.cancel_booking customer number w) as [res w'] eqn:E.
    cbn [snd].
    destruct (cancel_effect _ _ _ _ _ E) as (_ & [(-> & -> & _) | Hb]);
      [exact Hinv |].
    destruct Hb as (r & o & c & l & _ & _ & Hc & Hrem & _ & ->).
    cbn. apply consistent_cancel; assumption.
Qed.

Lemma exec_all_consistent (ops : list Op) (w : World) :
  Forall hotel_op ops ->
  consistent (room_heap w) (cust_heap w) ->
  consistent (room_heap (exec_all ops w)) (cust_heap (exec_all ops w)).
Proof.
  revert w. induction ops as [| op ops IH]; intros w Hops Hinv; [exact Hinv |].
  inversion Hops as [| ? ? Hop Hrest]; subst. cbn [exec_all fold_left].
  apply IH; [exact Hrest |]. apply exec_consistent; assumption.
Qed.

(** C9: start from a freshly built hotel, with no rooms and no customers,
    and run any sequence of constructor calls and public [Hotel] methods,
    whether they return or raise.  Then every room on a customer's
    [booked_rooms] list is an existing room whose [is_available] is
    [False]. *)
Theorem booked_rooms_are_unavailable (hname : string) (h : HotelObj)
    (clock : nat -> DateTime) (ops : list Op) (customer : loc) (c : CustomerObj)
    (room : loc) :
  Hotel.init hname = Ok h ->
  Forall hotel_op ops ->
  cust_heap (exec_all ops (fresh_world h clock)) !! customer = Some c ->
  In room (booked_rooms c) ->
  exists o,
    room_heap (exec_all ops (fresh_world h clock)) !! room = Some o
    /\ is_available o = false.
Proof.
  intros _ Hops Hc Hin.
  assert (Hinv : consistent (room_heap (exec_all ops (fresh_world h clock)))
                            (cust_heap (exec_all ops (fresh_world h clock)))).
  { apply exec_all_consistent; [exact Hops | exact consistent_empty]. }
  exact (listed_unavailable _ _ Hinv customer c room Hc Hin).
Qed.

Lemma booked_rooms_are_unavailable_witness :
  let w := exec_all sample_session (fresh_world (mkHotel "Hotel" [] []) sample_clock) in
  Hotel.init "Hotel" = Ok (mkHotel "Hotel" [] [])
  /\ booked_rooms <$> (cust_heap w !! 1%positive) = Some [2%positive]
  /\ exists o, room_heap w !! 2%positive = Some o /\ is_available o = false.
Proof.
  intros w.
  split; [reflexivity |]. split; [reflexivity |].
  apply (booked_rooms_are_unavailable "Hotel" (mkHotel "Hotel" [] []) sample_clock
           sample_session 1%positive
           (mkCustomer "lasha" (500 - 100 * 1.3 * inject_Z 2 - 150 * 1.3 * inject_Z 1)%Q
              [2%positive]
              (0 + py_int (100 * 1.3 * inject_Z 2 / 100)%Q
               + py_int (150 * 1.3 * inject_Z 1 / 100)%Q))
           2%positive).
  - reflexivity.
  - repeat constructor.
  - reflexivity.
  - left. reflexivity.
Defined.

(** ** The hotel's room list stays well formed *)

Lemma rooms_ok_same_heap (w w' : World) :
  room_heap w' = room_heap w -> rooms (hotel w') = rooms (hotel w) ->
  hotel_rooms_ok w -> hotel_rooms_ok w'.
Proof. unfold hotel_rooms_ok. intros -> ->. trivial. Qed.

Lemma rooms_ok_update (w w' : World) (r : loc) (o o' : RoomObj) :
  room_heap w !! r = Some o ->
  room_heap w' = <[r := o']> (room_heap w) ->
  room_number o' = room_number o ->
  rooms (hotel w') = rooms (hotel w) ->
  hotel_rooms_ok w -> hotel_rooms_ok w'.
Proof.
  unfold hotel_rooms_ok. intros Ho -> Hn -> [Halloc Huniq].
  assert (Hnum : forall y oy, <[r := o']> (room_heap w) !! y = Some oy ->
            exists oy0, room_heap w !! y = Some oy0 /\ room_number oy0 = room_number oy).
  { intros y oy Hy. apply lookup_insert_Some in Hy as [[<- <-] | [_ Hy]].
    - exists o. split; [exact Ho | symmetry; exact Hn].
    - exists oy. split; [exact Hy | reflexivity]. }
  split.
  - intros y Hy. destruct (decide (r = y)) as [<- | Hne].
    + rewrite lookup_insert_eq. eexists. reflexivity.
    + rewrite lookup_insert_ne by exact Hne. apply Halloc. exact Hy.
  - intros r1 r2 o1 o2 Hin1 Hin2 H1 H2 Heq.
    destruct (Hnum r1 o1 H1) as (p1 & Hp1 & Hn1).
    destruct (Hnum r2 o2 H2) as (p2 & Hp2 & Hn2).
    apply (Huniq r1 r2 p1 p2); try assumption. congruence.
Qed.

Lemma rooms_ok_fresh (w w' : World) (r : loc) (o : RoomObj) :
  room_heap w !! r = None ->
  room_heap w' = <[r := o]> (room_heap w) ->
  rooms (hotel w') = rooms (hotel w) ->
  hotel_rooms_ok w -> hotel_rooms_ok w'.
Proof.
  unfold hotel_rooms_ok. intros Hfresh -> -> [Halloc Huniq].
  assert (Hold : forall y, In y (rooms (hotel w)) -> y <> r).
  { intros y Hy ->. destruct (Halloc r Hy) as [? Hr]. congruence. }
  split.
  - intros y Hy. rewrite lookup_insert_ne by (apply not_eq_sym, Hold, Hy).
    apply Halloc. exact Hy.
  - intros r1 r2 o1 o2 Hin1 Hin2.
    rewrite !lookup_insert_ne by (apply not_eq_sym, Hold; assumption).
    apply Huniq; assumption.
Qed.

Lemma any_room_number_false (l : list loc) (n : Z) (w w' : World) :
  any_room_number l n w = (Ok false, w') ->
  forall r o, In r l -> room_heap w !! r = Some o -> room_number o <> n.
Proof.
  induction l as [| y l IH]; intros H r o Hin Ho; [destruct Hin |].
  cbn [any_room_number] in H. unfold bind, get_room in H.
  destruct (room_heap w !! y) as [oy |] eqn:Ey; [| discriminate].
  destruct (Z.eqb_spec (room_number oy) n) as [Heq | Hne]; [discriminate |].
  destruct Hin as [-> | Hin].
  - rewrite Ey in Ho. injection Ho as <-. exact Hne.
  - exact (IH H r o Hin Ho).
Qed.

Lemma Hotel_add_room_rooms_ok (room : loc) (w : World) :
  hotel_rooms_ok w -> hotel_rooms_ok (exec (HotelAdd room) w).
Proof.
  intros Hok. cbn [exec].
  unfold Hotel.add_room, bind, isinstance_Room, get_hotel, get_room, raise,
    put_hotel, modify.
  destruct (room_heap w !! room) as [o |] eqn:Ho; cbn; [| exact Hok].
  rewrite Ho.
  pose proof (any_room_number_state (rooms (hotel w)) (room_number o) w) as Hs.
  destruct (any_room_number (rooms (hotel w)) (room_number o) w)
    as [[[|] | e] w'] eqn:Hany; cbn in Hs |- *; subst; try exact Hok.
  pose proof (any_room_number_false _ _ _ _ Hany) as Hnew.
  destruct Hok as [Halloc Huniq]. split; cbn.
  - intros y Hy. apply in_app_or in Hy as [Hy | [<- | []]];
      [apply Halloc; exact Hy | eexists; exact Ho].
  - intros r1 r2 o1 o2 Hin1 Hin2 H1 H2 Heq.
    apply in_app_or in Hin1 as [Hin1 | [<- | []]];
      apply in_app_or in Hin2 as [Hin2 | [<- | []]].
    + exact (Huniq r1 r2 o1 o2 Hin1 Hin2 H1 H2 Heq).
    + exfalso. rewrite Ho in H2. injection H2 as <-.
      exact (Hnew r1 o1 Hin1 H1 Heq).
    + exfalso. rewrite Ho in H1. injection H1 as <-.
      exact (Hnew r2 o2 Hin2 H2 (eq_sym Heq)).
    + reflexivity.
Qed.

Lemma exec_rooms_ok (op : Op) (w : World) :
  hotel_rooms_ok w -> hotel_rooms_ok (exec op w).
Proof.
  intros Hok. destruct op.
  - destruct (Room_init_effect number rtype price maxg w) as [-> | (r & Hr & ->)];
      [exact Hok |].
    eapply rooms_ok_fresh; [exact Hr | reflexivity | reflexivity | exact Hok].
  - destruct (Customer_init_effect cname cbudget w) as [-> | (c0 & _ & _ & ->)];
      [exact Hok |].
    apply (rooms_ok_same_heap w); [reflexivity | reflexivity | exact Hok].
  - destruct (Room_book_room_effect room w) as (_ & Hh & [Hr | (o & Ho & Hr)]).
    + apply (rooms_ok_same_heap w); [exact Hr | rewrite Hh; reflexivity | exact Hok].
    + eapply rooms_ok_update;
        [exact Ho | exact Hr | reflexivity | rewrite Hh; reflexivity | exact Hok].
  - destruct (Room_release_room_effect room w) as (_ & Hh & [Hr | (o & Ho & Hr)]).
    + apply (rooms_ok_same_heap w); [exact Hr | rewrite Hh; reflexivity | exact Hok].
    + eapply rooms_ok_update;
        [exact Ho | exact Hr | reflexivity | rewrite Hh; reflexivity | exact Hok].
  - destruct (readonly_effect (RoomPrice room nights) w I) as (Hr & _ & Hh).
    apply (rooms_ok_same_heap w); [exact Hr | rewrite Hh; reflexivity | exact Hok].
  - destruct (Customer_add_room_effect customer room w) as (Hr & Hh & _).
    apply (rooms_ok_same_heap w); [exact Hr | rewrite Hh; reflexivity | exact Hok].
  - destruct (Customer_remove_room_effect customer room w) as (Hr & Hh & _).
    apply (rooms_ok_same_heap w); [exact Hr | rewrite Hh; reflexivity | exact Hok].
  - destruct (Customer_pay_effect customer total_price w) as (Hr & Hh & _).
    apply (rooms_ok_same_heap w); [exact Hr | rewrite Hh; reflexivity | exact Hok].
  - destruct (readonly_effect (CustSummary customer) w I) as (Hr & _ & Hh).
    apply (rooms_ok_same_heap w); [exact Hr | rewrite Hh; reflexivity | exact Hok].
  - apply Hotel_add_room_rooms_ok. exact Hok.
  - destruct (readonly_effect (HotelShow rtype) w I) as (Hr & _ & Hh).
    apply (rooms_ok_same_heap w); [exact Hr | rewrite Hh; reflexivity | exact Hok].
  - destruct (readonly_effect (HotelTotal number nights) w I) as (Hr & _ & Hh).
    apply (rooms_ok_same_heap w); [exact Hr | rewrite Hh; reflexivity | exact Hok].
  - destruct (Hotel_log_booking_effect customer room total_price nights w)
      as (Hr & _ & Hl).
    apply (rooms_ok_same_heap w); [exact Hr | exact Hl | exact Hok].
  - cbn [exec].
    destruct (Hotel.book_room_for_customer customer number nights guests w)
      as [res w'] eqn:E.
    cbn [snd].
    destruct (book_effect _ _ _ _ _ _ _ E) as (Hl & [(Hr & _) | Hb]).
    + apply (rooms_ok_same_heap w); [exact Hr | exact Hl | exact Hok].
    + destruct Hb as (r & o & c & total & _ & Ho & _ & _ & _ & _ & _ & _ & Hr & _).
      eapply rooms_ok_update; [exact Ho | exact Hr | reflexivity | exact Hl | exact Hok].
  - cbn [exec].
    destruct (Hotel.cancel_booking customer number w) as [res w'] eqn:E.
    cbn [snd].
    destruct (cancel_effect _ _ _ _ _ E) as (Hh & [(Hr & _) | Hb]).
    + apply (rooms_ok_same_heap w); [exact Hr | rewrite Hh; reflexivity | exact Hok].
    + destruct Hb as (r & o & c & l & _ & Ho & _ & _ & _ & ->).
      eapply rooms_ok_update; [exact Ho | reflexivity | reflexivity | reflexivity | exact Hok].
Qed.

(** X24: in every state of a session that started from a freshly built
    hotel, whatever operations were called, the listed rooms are allocated
    and carry pairwise distinct numbers. *)
Lemma session_rooms_ok (hname : string) (h : HotelObj) (clock : nat -> DateTime)
    (ops : list Op) :
  Hotel.init hname = Ok h ->
  hotel_rooms_ok (exec_all ops (fresh_world h clock)).
Proof.
  intros Hinit.
  assert (Hstart : hotel_rooms_ok (fresh_world h clock)).
  { unfold Hotel.init in Hinit. destruct (_ || _); [discriminate |].
    injection Hinit as <-. split; cbn; [intros r [] | intros r1 r2 o1 o2 []]. }
  generalize dependent (fresh_world h clock). intros w Hw.
  revert w Hw. induction ops as [| op ops IH]; intros w Hw; [exact Hw |].
  cbn [exec_all fold_left]. apply IH. apply exec_rooms_ok. exact Hw.
Qed.

(** * Further properties of the three classes *)

(** ** Room *)



Lemma book_room_run (w : World) (r : loc) (o : RoomObj) :
  room_heap w !! r = Some o -> is_available o = true ->
  Room.book_room r w
  = (Ok tt, set_room_heap (fun h => <[r := set_is_available false o]> h) w).
Proof.
  intros Ho Hav. unfold Room.book_room.
  rewrite (bind_run _ _ _ _ _ (get_room_run w r o Ho)). rewrite Hav. reflexivity.
Qed.

Lemma book_room_refused (w : World) (r : loc) (o : RoomObj) :
  room_heap w !! r = Some o -> is_available o = false ->
  Room.book_room r w
  = (Raise (ValueError ("room " +:+ pretty (room_number o) +:+ " is not available")), w).
Proof.
  intros Ho Hav. unfold Room.book_room.
  rewrite (bind_run _ _ _ _ _ (get_room_run w r o Ho)). rewrite Hav. reflexivity.
Qed.

Lemma release_room_run (w : World) (r : loc) (o : RoomObj) :
  room_heap w !! r = Some o ->
  Room.release_room r w
  = (Ok tt, set_room_heap (fun h => <[r := set_is_available true o]> h) w).
Proof.
  intros Ho. unfold Room.release_room.
  rewrite (bind_run _ _ _ _ _ (get_room_run w r o Ho)). reflexivity.
Qed.

(** X2: [book_room] on an available room marks it unavailable and changes
    no other field; a second [book_room] on the same room raises
    "room N is not available" and leaves the store as the first call left
    it. *)
Theorem book_room_twice (w : World) (r : loc) (o : RoomObj) :
  room_heap w !! r = Some o ->
  is_available o = true ->
  exists w1,
    Room.book_room r w = (Ok tt, w1)
    /\ room_heap w1 !! r
       = Some (mkRoom (room_number o) (room_type o) (price_per_night o) false
                 (max_guests o))
    /\ Room.book_room r w1
       = (Raise (ValueError ("room " +:+ pretty (room_number o)
                             +:+ " is not available")), w1).
Proof.
  intros Ho Hav. eexists. split; [exact (book_room_run w r o Ho Hav) |].
  split; [cbn; apply lookup_insert_eq |].
  apply (book_room_refused _ r (set_is_available false o));
    [cbn; apply lookup_insert_eq | reflexivity].
Qed.

Lemma book_room_twice_witness :
  exists w1,
    Room.book_room 1%positive sample_world = (Ok tt, w1)
    /\ room_heap w1 !! 1%positive = Some (mkRoom 101 "Single" 100 false 1)
    /\ Room.book_room 1%positive w1
       = (Raise (ValueError "room 101 is not available"), w1).
Proof.
  apply (book_room_twice sample_world 1%positive (mkRoom 101 "Single" 100 true 1));
    reflexivity.
Defined.

Lemma set_is_available_same (o : RoomObj) :
  set_is_available (is_available o) o = o.
Proof. destruct o. reflexivity. Qed.

Lemma set_room_heap_id (w : World) (r : loc) (o : RoomObj) :
  room_heap w !! r = Some o ->
  set_room_heap (fun h => <[r := o]> h) w = w.
Proof.
  intros Ho. destruct w as [rh ch h s c t]. unfold set_room_heap. cbn in *.
  rewrite (insert_id rh r o Ho). reflexivity.
Qed.

(** X3: [release_room] never fails on a room object and is idempotent:
    releasing twice leaves the same store as releasing once, and releasing a
    room that is available changes nothing at all.  Releasing after
    [book_room] gives back exactly the store from before the booking. *)
Theorem release_room_idempotent (w : World) (r : loc) (o : RoomObj) :
  room_heap w !! r = Some o ->
  exists w1,
    Room.release_room r w = (Ok tt, w1)
    /\ room_heap w1 !! r = Some (set_is_available true o)
    /\ Room.release_room r w1 = (Ok tt, w1)
    /\ (is_available o = true ->
        w1 = w
        /\ exists wb,
             Room.book_room r w = (Ok tt, wb)
             /\ Room.release_room r wb = (Ok tt, w)).
Proof.
  intros Ho. eexists. split; [exact (release_room_run w r o Ho) |].
  split; [cbn; apply lookup_insert_eq |].
  assert (Hid : forall w0 o0, room_heap w0 !! r = Some o0 -> is_available o0 = true ->
                  set_room_heap (fun h => <[r := set_is_available true o0]> h) w0 = w0).
  { intros w0 o0 H0 Hav0. rewrite <- Hav0, set_is_available_same.
    apply set_room_heap_id. exact H0. }
  split.
  - rewrite (release_room_run _ r (set_is_available true o))
      by (cbn; apply lookup_insert_eq).
    f_equal. apply Hid; [cbn; apply lookup_insert_eq | reflexivity].
  - intros Hav. split; [apply Hid; assumption |].
    eexists. split; [exact (book_room_run w r o Ho Hav) |].
    rewrite (release_room_run _ r (set_is_available false o))
      by (cbn; apply lookup_insert_eq).
    f_equal. unfold set_room_heap. cbn. rewrite insert_insert_eq.
    replace (set_is_available true (set_is_available false o)) with o
      by (destruct o; cbn in Hav; subst; reflexivity).
    apply set_room_heap_id. exact Ho.
Qed.

Lemma release_room_idempotent_witness :
  exists w1,
    Room.release_room 1%positive sample_world = (Ok tt, w1)
    /\ room_heap w1 !! 1%positive
       = Some (set_is_available true (mkRoom 101 "Single" 100 true 1))
    /\ Room.release_room 1%positive w1 = (Ok tt, w1)
    /\ (true = true ->
        w1 = sample_world
        /\ exists wb,
             Room.book_room 1%positive sample_world = (Ok tt, wb)
             /\ Room.release_room 1%positive wb = (Ok tt, sample_world)).
Proof.
  apply (release_room_idempotent sample_world 1%positive
           (mkRoom 101 "Single" 100 true 1)).
  reflexivity.
Defined.

(** ** Hotel: the room registry *)

Lemma any_room_number_free (l : list loc) (n : Z) (w : World) :
  all_rooms (room_heap w) l -> number_free (room_heap w) l n ->
  any_room_number l n w = (Ok false, w).
Proof.
  induction l as [| y l IH]; intros Hall Hfree; [reflexivity |].
  cbn [any_room_number]. unfold bind, get_room.
  destruct (Hall y (or_introl eq_refl)) as [o Ho]. rewrite Ho.
  destruct (Z.eqb_spec (room_number o) n) as [Heq | _].
  - exfalso. exact (Hfree y o (or_introl eq_refl) Ho Heq).
  - apply IH.
    + intros r Hr. apply Hall. right. exact Hr.
    + intros r o' Hr. apply Hfree. right. exact Hr.
Qed.

Lemma any_room_number_taken (l : list loc) (n : Z) (w : World) (r : loc)
    (o : RoomObj) :
  all_rooms (room_heap w) l ->
  In r l -> room_heap w !! r = Some o -> room_number o = n ->
  any_room_number l n w = (Ok true, w).
Proof.
  induction l as [| y l IH]; intros Hall Hin Ho Hn; [destruct Hin |].
  cbn [any_room_number]. unfold bind, get_room.
  destruct (Hall y (or_introl eq_refl)) as [oy Hy]. rewrite Hy.
  destruct (Z.eqb_spec (room_number oy) n) as [_ | Hne]; [reflexivity |].
  destruct Hin as [-> | Hin]; [congruence |].
  apply IH; try assumption. intros z Hz. apply Hall. right. exact Hz.
Qed.

Lemma find_res_free (h : gmap loc RoomObj) (l : list loc) (n : Z) :
  all_rooms h l -> number_free h l n ->
  forall l', find_res h (l ++ l') n = find_res h l' n.
Proof.
  induction l as [| y l IH]; intros Hall Hfree l'; [reflexivity |].
  cbn [app find_res].
  destruct (Hall y (or_introl eq_refl)) as [o Ho]. rewrite Ho.
  destruct (Z.eqb_spec (room_number o) n) as [Heq | _].
  - exfalso. exact (Hfree y o (or_introl eq_refl) Ho Heq).
  - apply IH.
    + intros r Hr. apply Hall. right. exact Hr.
    + intros r o' Hr. apply Hfree. right. exact Hr.
Qed.

(** X4: [Hotel.add_room] refuses a room whose number is already listed, with
    "room N already exists" and no change; a room with a new number is
    appended at the end of the list, the booking log is kept, and
    [_find_room] then finds that very room under its number. *)
Theorem Hotel_add_room_spec (w : World) (room : loc) (o : RoomObj) :
  room_heap w !! room = Some o ->
  all_rooms (room_heap w) (rooms (hotel w)) ->
  ((exists r o', In r (rooms (hotel w)) /\ room_heap w !! r = Some o'
                 /\ room_number o' = room_number o) ->
     Hotel.add_room room w
     = (Raise (ValueError ("room " +:+ pretty (room_number o) +:+ " already exists")),
        w))
  /\ (number_free (room_heap w) (rooms (hotel w)) (room_number o) ->
      exists w1,
        Hotel.add_room room w = (Ok tt, w1)
        /\ rooms (hotel w1) = rooms (hotel w) ++ [room]
        /\ bookings_log (hotel w1) = bookings_log (hotel w)
        /\ room_heap w1 = room_heap w
        /\ cust_heap w1 = cust_heap w
        /\ Hotel._find_room (room_number o) w1 = (Ok room, w1)).
Proof.
  intros Ho Hall. split.
  - intros (r & o' & Hin & Ho' & Hn).
    unfold Hotel.add_room, isinstance_Room, bind, get_hotel, get_room.
    rewrite Ho. cbn. rewrite Ho.
    rewrite (any_room_number_taken _ _ w r o' Hall Hin Ho' Hn). reflexivity.
  - intros Hfree. eexists. split.
    + unfold Hotel.add_room, isinstance_Room, bind, get_hotel, get_room.
      rewrite Ho. cbn. rewrite Ho.
      rewrite (any_room_number_free _ _ w Hall Hfree). reflexivity.
    + repeat split. rewrite find_room_pure. cbn.
      rewrite (find_res_free _ _ _ Hall Hfree). cbn [find_res].
      rewrite Ho, Z.eqb_refl. reflexivity.
Qed.

Lemma Hotel_add_room_spec_witness :
  Hotel.add_room 2%positive sample_world
  = (Raise (ValueError "room 102 already exists"), sample_world)
  /\ exists w1,
       Hotel.add_room 2%positive (set_hotel (set_rooms [1%positive]) sample_world)
       = (Ok tt, w1)
       /\ rooms (hotel w1) = [1%positive] ++ [2%positive]
       /\ bookings_log (hotel w1) = []
       /\ room_heap w1 = room_heap sample_world
       /\ cust_heap w1 = cust_heap sample_world
       /\ Hotel._find_room 102 w1 = (Ok 2%positive, w1).
Proof.
  split.
  - destruct (Hotel_add_room_spec sample_world 2%positive
                (mkRoom 102 "Double" 150 true 2)) as [H _]; [reflexivity | |].
    + intros r [<- | [<- | []]]; eexists; reflexivity.
    + apply H. exists 2%positive, (mkRoom 102 "Double" 150 true 2).
      split; [right; left; reflexivity | split; reflexivity].
  - destruct (Hotel_add_room_spec (set_hotel (set_rooms [1%positive]) sample_world)
                2%positive (mkRoom 102 "Double" 150 true 2)) as [_ H];
      [reflexivity | |].
    + intros r [<- | []]; eexists; reflexivity.
    + apply H. intros r o' [<- | []] Ho'. vm_compute in Ho'.
      injection Ho' as <-. cbn. discriminate.
Defined.

(** X5: with every listed reference a room object, [_find_room(n)] raises
    "room n not found" exactly when no listed room has number n; otherwise it
    returns the first listed room with that number.  It never changes the
    store. *)
Theorem find_room_spec (w : World) (n : Z) :
  all_rooms (room_heap w) (rooms (hotel w)) ->
  (number_free (room_heap w) (rooms (hotel w)) n ->
     Hotel._find_room n w
     = (Raise (ValueError ("room " +:+ pretty n +:+ " not found")), w))
  /\ (forall l1 r l2 o,
        rooms (hotel w) = l1 ++ r :: l2 ->
        number_free (room_heap w) l1 n ->
        room_heap w !! r = Some o -> room_number o = n ->
        Hotel._find_room n w = (Ok r, w))
  /\ (forall res w', Hotel._find_room n w = (res, w') -> w' = w)
  /\ (forall r, Hotel._find_room n w = (Ok r, w) ->
        In r (rooms (hotel w))
        /\ exists o, room_heap w !! r = Some o /\ room_number o = n).
Proof.
  intros Hall. split; [| split; [| split]].
  - intros Hfree. rewrite find_room_pure.
    rewrite <- (app_nil_r (rooms (hotel w))).
    rewrite (find_res_free _ _ _ Hall Hfree). reflexivity.
  - intros l1 r l2 o Hl Hfree Ho Hn. rewrite find_room_pure, Hl.
    rewrite find_res_free; [| | exact Hfree].
    + cbn [find_res]. rewrite Ho. subst n. rewrite Z.eqb_refl. reflexivity.
    + intros y Hy. apply Hall. rewrite Hl. apply in_or_app. left. exact Hy.
  - intros res w' H. rewrite find_room_pure in H. injection H as _ <-. reflexivity.
  - intros r H. rewrite find_room_pure in H. injection H as H.
    exact (find_res_ok _ _ _ _ H).
Qed.

Lemma find_room_spec_witness :
  Hotel._find_room 999 sample_world
  = (Raise (ValueError "room 999 not found"), sample_world)
  /\ Hotel._find_room 102 sample_world = (Ok 2%positive, sample_world).
Proof.
  destruct (find_room_spec sample_world 999) as (H1 & _).
  { intros r [<- | [<- | []]]; eexists; reflexivity. }
  destruct (find_room_spec sample_world 102) as (_ & H2 & _).
  { intros r [<- | [<- | []]]; eexists; reflexivity. }
  split.
  - apply H1. intros r o [<- | [<- | []]] Ho; vm_compute in Ho;
      injection Ho as <-; cbn; discriminate.
  - apply (H2 [1%positive] 2%positive [] (mkRoom 102 "Double" 150 true 2));
      try reflexivity.
    intros r o [<- | []] Ho. vm_compute in Ho. injection Ho as <-. cbn. discriminate.
Defined.

(** X6: for a listed room, [calculate_total_booking] under the room's number
    is the room's own [calculate_price]: same result or same exception, same
    store afterwards, for every number of nights. *)
Theorem calculate_total_booking_is_room_price (w : World) (r : loc) (o : RoomObj)
    (nights : Z) :
  hotel_rooms_ok w ->
  In r (rooms (hotel w)) ->
  room_heap w !! r = Some o ->
  Hotel.calculate_total_booking (room_number o) nights w
  = Room.calculate_price r nights w.
Proof.
  intros Hok Hin Ho. unfold Hotel.calculate_total_booking.
  rewrite (bind_run _ _ _ _ _ (find_room_listed w r o Hok Hin Ho)). reflexivity.
Qed.

Lemma calculate_total_booking_is_room_price_witness :
  Hotel.calculate_total_booking 101 2 sample_world
  = Room.calculate_price 1%positive 2 sample_world
  /\ Hotel.calculate_total_booking 101 0 sample_world
     = Room.calculate_price 1%positive 0 sample_world.
Proof.
  split.
  - apply (calculate_total_booking_is_room_price sample_world 1%positive
             (mkRoom 101 "Single" 100 true 1) 2);
      [exact sample_world_rooms_ok | left; reflexivity | reflexivity].
  - apply (calculate_total_booking_is_room_price sample_world 1%positive
             (mkRoom 101 "Single" 100 true 1) 0);
      [exact sample_world_rooms_ok | left; reflexivity | reflexivity].
Defined.

(** ** Hotel: listing available rooms *)

Lemma filter_rooms_pure (p : RoomObj -> bool) (l : list loc) (w : World) :
  all_rooms (room_heap w) l ->
  filter_rooms p l w = (Ok (select_rooms (room_heap w) p l), w).
Proof.
  induction l as [| y l IH]; intros Hall; [reflexivity |].
  cbn [filter_rooms select_rooms List.filter]. unfold bind, get_room, ret.
  destruct (Hall y (or_introl eq_refl)) as [o Ho]. rewrite Ho.
  rewrite IH by (intros r Hr; apply Hall; right; exact Hr).
  reflexivity.
Qed.

Lemma select_rooms_In (h : gmap loc RoomObj) (p : RoomObj -> bool) (l : list loc)
    (r : loc) :
  In r (select_rooms h p l)
  <-> In r l /\ exists o, h !! r = Some o /\ p o = true.
Proof.
  unfold select_rooms. rewrite filter_In. split.
  - intros [Hin Hp]. split; [exact Hin |].
    destruct (h !! r) as [o |]; [| discriminate]. exists o. split; [reflexivity | exact Hp].
  - intros [Hin (o & Ho & Hp)]. split; [exact Hin |]. rewrite Ho. exact Hp.
Qed.

Lemma select_rooms_twice (h : gmap loc RoomObj) (p q : RoomObj -> bool)
    (l : list loc) :
  select_rooms h q (select_rooms h p l) = select_rooms h (fun o => p o && q o) l.
Proof.
  induction l as [| y l IH]; [reflexivity |].
  cbn [select_rooms List.filter] in *.
  destruct (h !! y) as [o |] eqn:Ho; [| exact IH].
  destruct (p o); cbn [List.filter andb]; [| exact IH].
  rewrite Ho. destruct (q o); [f_equal |]; exact IH.
Qed.

Lemma filter_rooms_sound (p : RoomObj -> bool) (l res : list loc) (w w' : World) :
  filter_rooms p l w = (Ok res, w') ->
  forall r, In r res ->
    In r l /\ exists o, room_heap w !! r = Some o /\ p o = true.
Proof.
  revert res w'. induction l as [| y l IH]; intros res w' H r Hr.
  - cbn in H. injection H as <- _. destruct Hr.
  - cbn [filter_rooms] in H. unfold bind, get_room, ret in H.
    destruct (room_heap w !! y) as [o |] eqn:Ho; [| discriminate].
    destruct (filter_rooms p l w) as [[rest | e] w0] eqn:E; [| discriminate].
    injection H as <- _.
    assert (Hrest : In r rest ->
              In r (y :: l) /\ exists o0, room_heap w !! r = Some o0 /\ p o0 = true).
    { intros Hin. destruct (IH rest w0 eq_refl r Hin) as [H1 H2].
      split; [right; exact H1 | exact H2]. }
    destruct (p o) eqn:Hp; [| exact (Hrest Hr)].
    destruct Hr as [<- | Hr]; [| exact (Hrest Hr)].
    split; [left; reflexivity | exists o; split; assumption].
Qed.

(** X7: with every listed reference a room object, [show_available_rooms]
    returns, in list order, exactly the listed rooms that are available and,
    when a non-empty type is given, of that type; an empty type string
    counts as no filter; a type other than 'Single' and 'Double' raises.  The
    store is never changed. *)
Theorem show_available_rooms_spec (w : World) (rtype : option string) :
  all_rooms (room_heap w) (rooms (hotel w)) ->
  (match rtype with
   | Some t => t = "" \/ t = "Single" \/ t = "Double"
   | None => True
   end ->
   Hotel.show_available_rooms rtype w
   = (Ok (select_rooms (room_heap w) (offered_as rtype) (rooms (hotel w))), w))
  /\ (forall t, rtype = Some t -> t <> "" -> t <> "Single" -> t <> "Double" ->
      Hotel.show_available_rooms rtype w
      = (Raise (ValueError "room type must be 'Single' or 'Double'"), w))
  /\ (forall r,
        In r (select_rooms (room_heap w) (offered_as rtype) (rooms (hotel w)))
        <-> In r (rooms (hotel w))
            /\ exists o, room_heap w !! r = Some o
                         /\ is_available o = true
                         /\ match rtype with
                            | Some t => t = "" \/ room_type o = t
                            | None => True
                            end).
Proof.
  intros Hall.
  assert (Hfirst :
            Hotel.show_available_rooms rtype w
            = match rtype with
              | None => (Ok (select_rooms (room_heap w) is_available (rooms (hotel w))), w)
              | Some t =>
                  if py_not_str t
                  then (Ok (select_rooms (room_heap w) is_available (rooms (hotel w))), w)
                  else if negb (existsb (String.eqb t) ["Single"; "Double"])
                  then (Raise (ValueError "room type must be 'Single' or 'Double'"), w)
                  else filter_rooms (fun o => String.eqb (room_type o) t)
                         (select_rooms (room_heap w) is_available (rooms (hotel w))) w
              end).
  { unfold Hotel.show_available_rooms, bind, get_hotel.
    rewrite (filter_rooms_pure is_available _ w Hall).
    destruct rtype as [t |]; [| reflexivity].
    destruct (py_not_str t); [reflexivity |].
    destruct (negb _); reflexivity. }
  assert (Hall' : all_rooms (room_heap w)
                    (select_rooms (room_heap w) is_available (rooms (hotel w)))).
  { intros r Hr. apply select_rooms_In in Hr as [Hr _]. apply Hall. exact Hr. }
  assert (Hsame : forall t, py_not_str t = true ->
            select_rooms (room_heap w) (offered_as (Some t)) (rooms (hotel w))
            = select_rooms (room_heap w) is_available (rooms (hotel w))).
  { intros t Ht. unfold select_rooms. apply filter_ext. intros r.
    destruct (room_heap w !! r) as [o |]; [| reflexivity].
    unfold offered_as. rewrite Ht. cbn. apply andb_true_r. }
  split; [| split].
  - intros Hvalid. rewrite Hfirst. destruct rtype as [t |].
    + destruct Hvalid as [-> | Hvalid].
      * cbn [py_not_str]. rewrite Hsame by reflexivity. reflexivity.
      * assert (Ht : py_not_str t = false /\ existsb (String.eqb t) ["Single"; "Double"] = true)
          by (destruct Hvalid as [-> | ->]; split; reflexivity).
        destruct Ht as [-> ->]. cbn [negb].
        rewrite (filter_rooms_pure _ _ w Hall'). rewrite select_rooms_twice.
        f_equal. f_equal. unfold select_rooms. apply filter_ext. intros r.
        destruct (room_heap w !! r) as [o |]; [| reflexivity].
        unfold offered_as. destruct Hvalid as [-> | ->]; reflexivity.
    + f_equal. f_equal. unfold select_rooms. apply filter_ext. intros r.
      destruct (room_heap w !! r) as [o |]; [| reflexivity].
      unfold offered_as. symmetry. apply andb_true_r.
  - intros t -> Hne H1 H2. rewrite Hfirst.
    destruct t as [| a t']; [contradiction |]. cbn [py_not_str].
    cbn [existsb].
    destruct (String.eqb_spec (String a t') "Single"); [contradiction |].
    destruct (String.eqb_spec (String a t') "Double"); [contradiction | reflexivity].
  - intros r. rewrite select_rooms_In. unfold offered_as. split.
    + intros [Hin (o & Ho & Hp)]. split; [exact Hin |]. exists o.
      apply andb_true_iff in Hp as [Hav Ht]. split; [exact Ho |]. split; [exact Hav |].
      destruct rtype as [t |]; [| exact I].
      apply orb_true_iff in Ht as [Ht | Ht].
      * left. destruct t; [reflexivity | discriminate].
      * right. apply String.eqb_eq. exact Ht.
    + intros [Hin (o & Ho & Hav & Ht)]. split; [exact Hin |]. exists o.
      split; [exact Ho |]. rewrite Hav. cbn [andb].
      destruct rtype as [t |]; [| reflexivity].
      destruct Ht as [-> | <-]; [reflexivity |].
      rewrite String.eqb_refl. apply orb_true_r.
Qed.

Lemma show_available_rooms_spec_witness :
  Hotel.show_available_rooms None sample_world
  = (Ok [1%positive; 2%positive], sample_world)
  /\ Hotel.show_available_rooms (Some "Double") sample_world
     = (Ok [2%positive], sample_world)
  /\ Hotel.show_available_rooms (Some "") sample_world
     = (Ok [1%positive; 2%positive], sample_world)
  /\ Hotel.show_available_rooms (Some "Triple") sample_world
     = (Raise (ValueError "room type must be 'Single' or 'Double'"), sample_world).
Proof.
  assert (Hall : all_rooms (room_heap sample_world) (rooms (hotel sample_world))).
  { intros r [<- | [<- | []]]; eexists; reflexivity. }
  destruct (show_available_rooms_spec sample_world None Hall) as (H1 & _).
  destruct (show_available_rooms_spec sample_world (Some "Double") Hall) as (H2 & _).
  destruct (show_available_rooms_spec sample_world (Some "") Hall) as (H3 & _).
  destruct (show_available_rooms_spec sample_world (Some "Triple") Hall) as (_ & H4 & _).
  split; [rewrite H1; [reflexivity | exact I] |].
  split; [rewrite H2; [reflexivity | right; right; reflexivity] |].
  split; [rewrite H3; [reflexivity | left; reflexivity] |].
  apply (H4 "Triple"); [reflexivity | discriminate | discriminate | discriminate].
Defined.

(** X8: a room that has just been booked through [book_room_for_customer]
    is never in the list [show_available_rooms] returns, whatever type
    filter is asked for. *)
Theorem booked_room_not_offered (customer : loc) (number nights guests : Z)
    (w w1 : World) :
  Hotel.book_room_for_customer customer number nights guests w = (Ok true, w1) ->
  exists room,
    Hotel._find_room number w = (Ok room, w)
    /\ forall rtype res w2,
         Hotel.show_available_rooms rtype w1 = (Ok res, w2) -> ~ In room res.
Proof.
  intros H.
  destruct (book_effect _ _ _ _ _ _ _ H) as (_ & [(_ & _ & _ & Hne) | Hb]);
    [congruence |].
  destruct Hb as (room & o & c & total & Hfind & Ho & _ & _ & _ & _ & _ & _ & Hrh & _).
  exists room. split; [rewrite find_room_pure, Hfind; reflexivity |].
  intros rtype res w2 Hshow Hin.
  assert (Hav : forall l res0 w0 w0',
            room_heap w0 = room_heap w1 ->
            filter_rooms is_available l w0 = (Ok res0, w0') -> ~ In room res0).
  { intros l res0 w0 w0' Hh Hf Hin0.
    destruct (filter_rooms_sound _ _ _ _ _ Hf room Hin0) as (_ & o' & Ho' & Hav').
    rewrite Hh, Hrh, lookup_insert_eq in Ho'. injection Ho' as <-. discriminate. }
  unfold Hotel.show_available_rooms, bind, get_hotel in Hshow.
  pose proof (filter_rooms_state is_available (rooms (hotel w1)) w1) as Hst.
  destruct (filter_rooms is_available (rooms (hotel w1)) w1) as [[av | e] w0] eqn:E;
    [| discriminate].
  cbn in Hst. subst w0.
  assert (Hnot : ~ In room av) by exact (Hav _ _ _ _ eq_refl E).
  destruct rtype as [t |].
  - destruct (py_not_str t).
    + injection Hshow as <- _. exact (Hnot Hin).
    + destruct (negb _); [discriminate |].
      destruct (filter_rooms_sound _ _ _ _ _ Hshow room Hin) as (Hin' & _).
      exact (Hnot Hin').
  - injection Hshow as <- _. exact (Hnot Hin).
Qed.

Lemma booked_room_not_offered_witness :
  let w1 := snd (Hotel.book_room_for_customer 1%positive 101 2 1 sample_world) in
  Hotel.book_room_for_customer 1%positive 101 2 1 sample_world = (Ok true, w1)
  /\ fst (Hotel.show_available_rooms None w1) = Ok [2%positive]
  /\ exists room,
       Hotel._find_room 101 sample_world = (Ok room, sample_world)
       /\ forall rtype res w2,
            Hotel.show_available_rooms rtype w1 = (Ok res, w2) -> ~ In room res.
Proof.
  intros w1.
  assert (H : Hotel.book_room_for_customer 1%positive 101 2 1 sample_world
              = (Ok true, w1)) by reflexivity.
  split; [exact H |]. split; [reflexivity |].
  exact (booked_room_not_offered 1%positive 101 2 1 sample_world w1 H).
Defined.

(** ** Hotel: the booking transaction *)

(** X9: [book_room_for_customer] checks its arguments before anything
    else: nights <= 0 raises "nights must be positive", then guests <= 0
    raises "guests must be positive", then a number with no listed room
    raises "room N not found".  In all three cases the whole store, logging
    sink and clock included, is untouched and nothing is charged. *)
Theorem book_argument_errors (customer : loc) (number nights guests : Z)
    (w : World) :
  all_rooms (room_heap w) (rooms (hotel w)) ->
  (nights <= 0 ->
     Hotel.book_room_for_customer customer number nights guests w
     = (Raise (ValueError "nights must be positive"), w))
  /\ (0 < nights -> guests <= 0 ->
      Hotel.book_room_for_customer customer number nights guests w
      = (Raise (ValueError "guests must be positive"), w))
  /\ (0 < nights -> 0 < guests ->
      number_free (room_heap w) (rooms (hotel w)) number ->
      Hotel.book_room_for_customer customer number nights guests w
      = (Raise (ValueError ("room " +:+ pretty number +:+ " not found")), w)).
Proof.
  intros Hall. unfold Hotel.book_room_for_customer. repeat split.
  - intros Hn. destruct (Z.leb_spec nights 0); [reflexivity | lia].
  - intros Hn Hg. destruct (Z.leb_spec nights 0); [lia |].
    destruct (Z.leb_spec guests 0); [reflexivity | lia].
  - intros Hn Hg Hfree. destruct (Z.leb_spec nights 0); [lia |].
    destruct (Z.leb_spec guests 0); [lia |].
    unfold bind. rewrite find_room_pure.
    rewrite <- (app_nil_r (rooms (hotel w))).
    rewrite (find_res_free _ _ _ Hall Hfree). reflexivity.
Qed.

Lemma book_argument_errors_witness :
  Hotel.book_room_for_customer 1%positive 101 0 1 sample_world
  = (Raise (ValueError "nights must be positive"), sample_world)
  /\ Hotel.book_room_for_customer 1%positive 101 2 0 sample_world
     = (Raise (ValueError "guests must be positive"), sample_world)
  /\ Hotel.book_room_for_customer 1%positive 999 2 1 sample_world
     = (Raise (ValueError "room 999 not found"), sample_world).
Proof.
  assert (Hall : all_rooms (room_heap sample_world) (rooms (hotel sample_world))).
  { intros r [<- | [<- | []]]; eexists; reflexivity. }
  destruct (book_argument_errors 1%positive 101 0 1 sample_world Hall) as (H1 & _).
  destruct (book_argument_errors 1%positive 101 2 0 sample_world Hall) as (_ & H2 & _).
  destruct (book_argument_errors 1%positive 999 2 1 sample_world Hall) as (_ & _ & H3).
  split; [apply H1; lia |]. split; [apply H2; lia |].
  apply H3; [lia | lia |].
  intros r o [<- | [<- | []]] Ho; vm_compute in Ho; injection Ho as <-;
    cbn; discriminate.
Defined.







(** ** Hotel: cancelling *)

(** X12: [cancel_booking] fails without changing anything when the number
    is not listed ("room N not found") and when the room found is not on
    this customer's own list ("customer X has no booking for room N"), also
    when the room is booked by somebody else. *)
Theorem cancel_refused (w : World) (customer : loc) (c : CustomerObj) (number : Z) :
  all_rooms (room_heap w) (rooms (hotel w)) ->
  cust_heap w !! customer = Some c ->
  (number_free (room_heap w) (rooms (hotel w)) number ->
     Hotel.cancel_booking customer number w
     = (Raise (ValueError ("room " +:+ pretty number +:+ " not found")), w))
  /\ (forall room,
        Hotel._find_room number w = (Ok room, w) ->
        ~ In room (booked_rooms c) ->
        Hotel.cancel_booking customer number w
        = (Raise (ValueError ("customer " +:+ name c
                              +:+ " has no booking for room " +:+ pretty number)),
           w)).
Proof.
  intros Hall Hc. split.
  - intros Hfree. unfold Hotel.cancel_booking, bind. rewrite find_room_pure.
    rewrite <- (app_nil_r (rooms (hotel w))).
    rewrite (find_res_free _ _ _ Hall Hfree). reflexivity.
  - intros room Hf Hnot. unfold Hotel.cancel_booking.
    rewrite (bind_run _ _ _ _ _ Hf).
    rewrite (bind_run _ _ _ _ _ (get_customer_run w customer c Hc)).
    destruct (py_in room (booked_rooms c)) eqn:E.
    + apply py_in_In in E. contradiction.
    + reflexivity.
Qed.

Lemma cancel_refused_witness :
  let w1 := snd (Hotel.book_room_for_customer 1%positive 101 2 1 sample_world) in
  let w2 := snd (Customer.init "gio" 900 w1) in
  Hotel.cancel_booking 2%positive 999 w2
  = (Raise (ValueError "room 999 not found"), w2)
  /\ Hotel.cancel_booking 2%positive 101 w2
     = (Raise (ValueError "customer gio has no booking for room 101"), w2).
Proof.
  intros w1 w2.
  destruct (cancel_refused w2 2%positive (mkCustomer "gio" 900 [] 0) 999) as [H1 _].
  { intros r [<- | [<- | []]]; eexists; reflexivity. }
  { reflexivity. }
  destruct (cancel_refused w2 2%positive (mkCustomer "gio" 900 [] 0) 101) as [_ H2].
  { intros r [<- | [<- | []]]; eexists; reflexivity. }
  { reflexivity. }
  split.
  - apply H1. intros r o [<- | [<- | []]] Ho; vm_compute in Ho;
      injection Ho as <-; cbn; discriminate.
  - apply (H2 1%positive); [reflexivity | intros []].
Defined.




(** ** What no operation ever does *)

Lemma Hotel_log_booking_log (customer room : loc) (x : Q) (k : Z) (w : World) :
  bookings_log (hotel (exec (HotelLog customer room x k) w)) = bookings_log (hotel w)
  \/ exists e,
       bookings_log (hotel (exec (HotelLog customer room x k) w))
       = bookings_log (hotel w) ++ [e].
Proof.
  cbn [exec].
  destruct (Hotel.log_booking customer room x k w) as [res w'] eqn:E.
  paths; try (left; reflexivity).
  right. eexists. reflexivity.
Qed.

Lemma exec_log_grows (op : Op) (w : World) :
  exists l',
    bookings_log (hotel (exec op w)) = bookings_log (hotel w) ++ l'
    /\ (length l' <= 1)%nat
    /\ (l' <> [] -> logs op).
Proof.
  assert (Hsame : bookings_log (hotel (exec op w)) = bookings_log (hotel w) ->
            exists l',
              bookings_log (hotel (exec op w)) = bookings_log (hotel w) ++ l'
              /\ (length l' <= 1)%nat /\ (l' <> [] -> logs op)).
  { intros ->. exists []. rewrite app_nil_r. repeat split; [cbn; lia | congruence]. }
  assert (Hone : forall e, logs op ->
            bookings_log (hotel (exec op w)) = bookings_log (hotel w) ++ [e] ->
            exists l',
              bookings_log (hotel (exec op w)) = bookings_log (hotel w) ++ l'
              /\ (length l' <= 1)%nat /\ (l' <> [] -> logs op)).
  { intros e Hop ->. exists [e]. repeat split; [cbn; lia | intros _; exact Hop]. }
  destruct op.
  - apply Hsame.
    destruct (Room_init_effect number rtype price maxg w) as [-> | (r & _ & ->)];
      reflexivity.
  - apply Hsame.
    destruct (Customer_init_effect cname cbudget w) as [-> | (c & _ & _ & ->)];
      reflexivity.
  - apply Hsame. destruct (Room_book_room_effect room w) as (_ & -> & _). reflexivity.
  - apply Hsame. destruct (Room_release_room_effect room w) as (_ & -> & _). reflexivity.
  - apply Hsame.
    destruct (readonly_effect (RoomPrice room nights) w I) as (_ & _ & ->). reflexivity.
  - apply Hsame. destruct (Customer_add_room_effect customer room w) as (_ & -> & _).
    reflexivity.
  - apply Hsame. destruct (Customer_remove_room_effect customer room w) as (_ & -> & _).
    reflexivity.
  - apply Hsame. destruct (Customer_pay_effect customer total_price w) as (_ & -> & _).
    reflexivity.
  - apply Hsame.
    destruct (readonly_effect (CustSummary customer) w I) as (_ & _ & ->). reflexivity.
  - apply Hsame. destruct (Hotel_add_room_effect room w) as (_ & _ & Hl & _). exact Hl.
  - apply Hsame.
    destruct (readonly_effect (HotelShow rtype) w I) as (_ & _ & ->). reflexivity.
  - apply Hsame.
    destruct (readonly_effect (HotelTotal number nights) w I) as (_ & _ & ->).
    reflexivity.
  - destruct (Hotel_log_booking_log customer room total_price nights w) as [Hl | (e & Hl)].
    + apply Hsame. exact Hl.
    + apply (Hone e I Hl).
  - cbn [exec] in *.
    destruct (Hotel.book_room_for_customer customer number nights guests w)
      as [res w'] eqn:E.
    cbn [snd] in *.
    destruct (book_effect _ _ _ _ _ _ _ E) as (_ & [(_ & _ & Hl & _) | Hb]).
    + apply Hsame. exact Hl.
    + destruct Hb as (r & o & c & total & _ & _ & _ & _ & _ & _ & _ & _ & _ & _
                      & [(_ & e & Hl) | (_ & Hl)]).
      * apply (Hone e I Hl).
      * apply Hsame. exact Hl.
  - apply Hsame. cbn [exec].
    destruct (Hotel.cancel_booking customer number w) as [res w'] eqn:E.
    cbn [snd].
    destruct (cancel_effect _ _ _ _ _ E) as (-> & _). reflexivity.
Qed.

(** X14: the booking log is append-only.  Every operation, returning or
    raising, keeps the entries that were there, in order, and adds at most
    one; only [book_room_for_customer] and [log_booking] ever add one, so in
    particular [cancel_booking] never alters the log.  Over a whole session
    the old log is a prefix of the new one. *)
Theorem bookings_log_append_only (ops : list Op) (w : World) :
  exists l',
    bookings_log (hotel (exec_all ops w)) = bookings_log (hotel w) ++ l'
    /\ (length l' <= length ops)%nat
    /\ (l' <> [] -> Exists logs ops).
Proof.
  revert w. induction ops as [| op ops IH]; intros w.
  - exists []. rewrite app_nil_r. repeat split; [cbn; lia | congruence].
  - cbn [exec_all fold_left].
    destruct (exec_log_grows op w) as (l1 & H1 & Hlen1 & Hop1).
    destruct (IH (exec op w)) as (l2 & H2 & Hlen2 & Hop2).
    exists (l1 ++ l2). split; [| split].
    + unfold exec_all in H2. rewrite H2, H1, app_assoc. reflexivity.
    + rewrite length_app. cbn [length]. lia.
    + intros Hne. destruct l1 as [| e l1].
      * apply Exists_cons_tl. apply Hop2. exact Hne.
      * apply Exists_cons_hd. apply Hop1. discriminate.
Qed.











(** ** Names *)










(** ** Customer: the list of booked rooms *)

Lemma summary_lines_run (l : list loc) (w : World) :
  all_rooms (room_heap w) l ->
  exists ls, summary_lines l w = (Ok ls, w)
             /\ Forall2 (summary_line (room_heap w)) l ls.
Proof.
  induction l as [| r l IH]; intros Hall.
  - exists []. split; [reflexivity | constructor].
  - destruct (Hall r (or_introl eq_refl)) as [o Ho].
    destruct IH as (ls & Hrun & Hls); [intros y Hy; apply Hall; right; exact Hy |].
    exists ((room_number o, price_per_night o) :: ls). split.
    + cbn [summary_lines]. unfold bind, get_room, ret. rewrite Ho, Hrun. reflexivity.
    + constructor; [exists o; split; [exact Ho | reflexivity] | exact Hls].
Qed.

(** X18: [show_booking_summary] raises "no room bookings" for a customer
    with an empty list; otherwise it returns the customer's name and one
    line per booked room, in booking order and with repetitions, each line
    carrying that room's current number and price per night.  It changes
    nothing. *)
Theorem show_booking_summary_spec (w : World) (self : loc) (c : CustomerObj) :
  cust_heap w !! self = Some c ->
  all_rooms (room_heap w) (booked_rooms c) ->
  (booked_rooms c = [] ->
     Customer.show_booking_summary self w
     = (Raise (ValueError "no room bookings"), w))
  /\ (booked_rooms c <> [] ->
      exists ls,
        Customer.show_booking_summary self w = (Ok (name c, ls), w)
        /\ Forall2 (summary_line (room_heap w)) (booked_rooms c) ls
        /\ length ls = length (booked_rooms c)).
Proof.
  intros Hc Hall. unfold Customer.show_booking_summary.
  rewrite (bind_run _ _ _ _ _ (get_customer_run w self c Hc)). split.
  - intros ->. reflexivity.
  - intros Hne. destruct (summary_lines_run _ w Hall) as (ls & Hrun & Hls).
    exists ls. split; [| split; [exact Hls | symmetry; exact (Forall2_length _ _ _ Hls)]].
    destruct (booked_rooms c) as [| r l]; [contradiction |].
    unfold bind, ret. rewrite Hrun. reflexivity.
Qed.

Lemma show_booking_summary_spec_witness :
  let w1 := snd (Hotel.book_room_for_customer 1%positive 101 2 1 sample_world) in
  Customer.show_booking_summary 1%positive sample_world
  = (Raise (ValueError "no room bookings"), sample_world)
  /\ exists ls,
       Customer.show_booking_summary 1%positive w1 = (Ok ("lasha", ls), w1)
       /\ Forall2 (summary_line (room_heap w1)) [1%positive] ls
       /\ length ls = 1%nat.
Proof.
  intros w1. split.
  - destruct (show_booking_summary_spec sample_world 1%positive
                (mkCustomer "lasha" 500 [] 0)) as [H _];
      [reflexivity | intros r [] | apply H; reflexivity].
  - destruct (show_booking_summary_spec w1 1%positive
                (mkCustomer "lasha" (500 - 100 * 1.3 * inject_Z 2)%Q [1%positive]
                   (0 + py_int (100 * 1.3 * inject_Z 2 / 100)%Q))) as [_ H].
    + reflexivity.
    + intros r [<- | []]. eexists. reflexivity.
    + apply H. discriminate.
Defined.

Lemma add_room_run (w : World) (self room : loc) (c : CustomerObj) (o : RoomObj) :
  cust_heap w !! self = Some c -> room_heap w !! room = Some o ->
  Customer.add_room self room w
  = (Ok tt,
     set_cust_heap
       (fun h => <[self := set_booked_rooms (booked_rooms c ++ [room]) c]> h) w).
Proof.
  intros Hc Ho. unfold Customer.add_room, isinstance_Room, bind. rewrite Ho.
  cbn [negb]. rewrite (get_customer_run w self c Hc). reflexivity.
Qed.

Lemma set_cust_heap_id (w : World) (self : loc) (c : CustomerObj) :
  cust_heap w !! self = Some c ->
  set_cust_heap (fun h => <[self := c]> h) w = w.
Proof.
  intros Hc. destruct w as [rh ch h s k t]. unfold set_cust_heap. cbn in *.
  rewrite (insert_id ch self c Hc). reflexivity.
Qed.

Lemma remove_appended (x : loc) (l : list loc) :
  ~ In x l -> py_list_remove x (l ++ [x]) = Some l.
Proof.
  induction l as [| y l IH]; intros Hnot; cbn [app py_list_remove].
  - rewrite Pos.eqb_refl. reflexivity.
  - destruct (Pos.eqb_spec y x) as [-> | _].
    + exfalso. apply Hnot. left. reflexivity.
    + rewrite IH; [reflexivity |]. intros H. apply Hnot. right. exact H.
Qed.

Lemma py_list_remove_count (x : loc) (l l' : list loc) (y : loc) :
  py_list_remove x l = Some l' ->
  count_occ Pos.eq_dec l y
  = (count_occ Pos.eq_dec l' y + (if Pos.eq_dec x y then 1 else 0))%nat.
Proof.
  intros H. pose proof (py_list_remove_In _ _ _ H) as Hin.
  destruct (py_list_remove_first _ _ Hin) as (l1 & l2 & -> & _ & H').
  rewrite H' in H. injection H as <-.
  rewrite !count_occ_app. cbn [count_occ]. unfold loc in *.
  destruct (Pos.eq_dec x y); lia.
Qed.

(** X19: [Customer.add_room] appends the room even when it is already on
    the list (no uniqueness is enforced), and [remove_room] right after it
    always succeeds and gives back a list with the same rooms the same
    number of times; when the room was not listed before, the two calls
    together leave the whole store exactly as it was. *)
Theorem add_then_remove_room (w : World) (self room : loc) (c : CustomerObj)
    (o : RoomObj) :
  cust_heap w !! self = Some c ->
  room_heap w !! room = Some o ->
  exists w1 w2 c2,
    Customer.add_room self room w = (Ok tt, w1)
    /\ booked_rooms <$> (cust_heap w1 !! self) = Some (booked_rooms c ++ [room])
    /\ Customer.remove_room self room w1 = (Ok tt, w2)
    /\ cust_heap w2 !! self = Some c2
    /\ (forall y, count_occ Pos.eq_dec (booked_rooms c2) y
                  = count_occ Pos.eq_dec (booked_rooms c) y)
    /\ (~ In room (booked_rooms c) -> w2 = w).
Proof.
  intros Hc Ho.
  assert (Hin : In room (booked_rooms c ++ [room]))
    by (apply in_or_app; right; left; reflexivity).
  destruct (py_list_remove_first _ _ Hin) as (l1 & l2 & Hl & _ & Hrem).
  assert (Hrun2 : Customer.remove_room self room
                    (set_cust_heap
                       (fun h => <[self := set_booked_rooms (booked_rooms c ++ [room]) c]> h) w)
                  = (Ok tt,
                     set_cust_heap (fun h => <[self := set_booked_rooms (l1 ++ l2) c]> h) w)).
  { unfold Customer.remove_room, isinstance_Room, bind, get_customer. cbn.
    rewrite Ho. cbn. rewrite lookup_insert_eq. cbn. rewrite Hrem.
    unfold put_customer, modify, set_cust_heap. cbn. rewrite insert_insert_eq.
    reflexivity. }
  eexists _, _, _.
  split; [exact (add_room_run w self room c o Hc Ho) |].
  split; [cbn; rewrite lookup_insert_eq; reflexivity |].
  split; [exact Hrun2 |].
  split; [cbn; apply lookup_insert_eq |].
  split.
  - intros y. cbn [booked_rooms set_booked_rooms].
    pose proof (py_list_remove_count _ _ _ y Hrem) as Hcount.
    rewrite count_occ_app in Hcount. cbn [count_occ] in Hcount. unfold loc in *.
    destruct (Pos.eq_dec room y); lia.
  - intros Hnot. rewrite (remove_appended _ _ Hnot) in Hrem. injection Hrem as <-.
    replace (set_booked_rooms (booked_rooms c) c) with c by (destruct c; reflexivity).
    apply set_cust_heap_id. exact Hc.
Qed.

Lemma add_then_remove_room_witness :
  exists w1 w2 c2,
    Customer.add_room 1%positive 2%positive sample_world = (Ok tt, w1)
    /\ booked_rooms <$> (cust_heap w1 !! 1%positive) = Some ([] ++ [2%positive])
    /\ Customer.remove_room 1%positive 2%positive w1 = (Ok tt, w2)
    /\ cust_heap w2 !! 1%positive = Some c2
    /\ (forall y, count_occ Pos.eq_dec (booked_rooms c2) y
                  = count_occ Pos.eq_dec [] y)
    /\ (~ In 2%positive [] -> w2 = sample_world).
Proof.
  apply (add_then_remove_room sample_world 1%positive 2%positive
           (mkCustomer "lasha" 500 [] 0) (mkRoom 102 "Double" 150 true 2));
    reflexivity.
Defined.

(** ** Sessions run through the hotel only *)

(** X20: in any session of constructor calls and public [Hotel] methods
    from a freshly built hotel, no room is ever double-booked: a room listed
    by two customer objects is listed by one and the same customer, and it
    occurs exactly once on that customer's list. *)
Theorem no_double_booking (hname : string) (h : HotelObj)
    (clock : nat -> DateTime) (ops : list Op) (c1 c2 : loc)
    (o1 o2 : CustomerObj) (room : loc) :
  Hotel.init hname = Ok h ->
  Forall hotel_op ops ->
  cust_heap (exec_all ops (fresh_world h clock)) !! c1 = Some o1 ->
  cust_heap (exec_all ops (fresh_world h clock)) !! c2 = Some o2 ->
  In room (booked_rooms o1) ->
  In room (booked_rooms o2) ->
  c1 = c2 /\ count_occ Pos.eq_dec (booked_rooms o1) room = 1%nat.
Proof.
  intros _ Hops H1 H2 Hin1 Hin2.
  assert (Hinv : consistent (room_heap (exec_all ops (fresh_world h clock)))
                            (cust_heap (exec_all ops (fresh_world h clock)))).
  { apply exec_all_consistent; [exact Hops | exact consistent_empty]. }
  split.
  - exact (listed_by_one _ _ Hinv c1 c2 o1 o2 room H1 H2 Hin1 Hin2).
  - pose proof (listed_once _ _ Hinv c1 o1 H1) as Hnd.
    exact (proj1 (List.NoDup_count_occ' Pos.eq_dec (booked_rooms o1)) Hnd room Hin1).
Qed.

Lemma no_double_booking_witness :
  let w := exec_all sample_session (fresh_world (mkHotel "Hotel" [] []) sample_clock) in
  booked_rooms <$> (cust_heap w !! 1%positive) = Some [2%positive]
  /\ 1%positive = 1%positive
  /\ count_occ Pos.eq_dec [2%positive] 2%positive = 1%nat.
Proof.
  intros w. split; [reflexivity |].
  apply (no_double_booking "Hotel" (mkHotel "Hotel" [] []) sample_clock
           sample_session 1%positive 1%positive
           (mkCustomer "lasha" (500 - 100 * 1.3 * inject_Z 2 - 150 * 1.3 * inject_Z 1)%Q
              [2%positive]
              (0 + py_int (100 * 1.3 * inject_Z 2 / 100)%Q
               + py_int (150 * 1.3 * inject_Z 1 / 100)%Q))
           (mkCustomer "lasha" (500 - 100 * 1.3 * inject_Z 2 - 150 * 1.3 * inject_Z 1)%Q
              [2%positive]
              (0 + py_int (100 * 1.3 * inject_Z 2 / 100)%Q
               + py_int (150 * 1.3 * inject_Z 1 / 100)%Q))
           2%positive).
  - reflexivity.
  - repeat constructor.
  - reflexivity.
  - reflexivity.
  - left. reflexivity.
  - left. reflexivity.
Defined.

Lemma accounted_empty : accounted ∅ ∅.
Proof. intros r o H. rewrite lookup_empty in H. discriminate. Qed.

Lemma accounted_new_room (rh : gmap loc RoomObj) (ch : gmap loc CustomerObj)
    (r : loc) (n : Z) (t : string) (p : Q) (g : Z) :
  accounted rh ch -> accounted (<[r := mkRoom n t p true g]> rh) ch.
Proof.
  intros Hacc y o Hy Hav.
  apply lookup_insert_Some in Hy as [[_ <-] | [_ Hy]]; [discriminate |].
  exact (Hacc y o Hy Hav).
Qed.

Lemma accounted_new_customer (rh : gmap loc RoomObj) (ch : gmap loc CustomerObj)
    (c0 : loc) (co : CustomerObj) :
  ch !! c0 = None -> accounted rh ch -> accounted rh (<[c0 := co]> ch).
Proof.
  intros Hfresh Hacc y o Hy Hav.
  destruct (Hacc y o Hy Hav) as (customer & c & Hc & Hin).
  exists customer, c. rewrite lookup_insert_ne by congruence. split; assumption.
Qed.

Lemma accounted_book (rh : gmap loc RoomObj) (ch : gmap loc CustomerObj)
    (customer room : loc) (c : CustomerObj) (o : RoomObj) (total : Q) :
  ch !! customer = Some c ->
  accounted rh ch ->
  accounted (<[room := set_is_available false o]> rh)
            (<[customer := booked_customer c room total]> ch).
Proof.
  intros Hc Hacc y oy Hy Hav.
  assert (Hkeep : forall customer' c', ch !! customer' = Some c' -> In y (booked_rooms c') ->
            exists customer'' c'',
              <[customer := booked_customer c room total]> ch !! customer'' = Some c''
              /\ In y (booked_rooms c'')).
  { intros customer' c' Hc' Hin. destruct (decide (customer = customer')) as [<- | Hne].
    - exists customer, (booked_customer c room total). rewrite lookup_insert_eq.
      split; [reflexivity |]. rewrite Hc in Hc'. injection Hc' as <-.
      cbn. apply in_or_app. left. exact Hin.
    - exists customer', c'. rewrite lookup_insert_ne by exact Hne. split; assumption. }
  apply lookup_insert_Some in Hy as [[<- _] | [_ Hy]].
  - exists customer, (booked_customer c room total). rewrite lookup_insert_eq.
    split; [reflexivity |]. cbn. apply in_or_app. right. left. reflexivity.
  - destruct (Hacc y oy Hy Hav) as (customer' & c' & Hc' & Hin).
    exact (Hkeep customer' c' Hc' Hin).
Qed.

Lemma accounted_cancel (rh : gmap loc RoomObj) (ch : gmap loc CustomerObj)
    (customer room : loc) (c : CustomerObj) (o : RoomObj) (l : list loc) :
  ch !! customer = Some c ->
  py_list_remove room (booked_rooms c) = Some l ->
  accounted rh ch ->
  accounted (<[room := set_is_available true o]> rh)
            (<[customer := set_booked_rooms l c]> ch).
Proof.
  intros Hc Hrem Hacc y oy Hy Hav.
  apply lookup_insert_Some in Hy as [[_ <-] | [Hne Hy]]; [discriminate |].
  destruct (Hacc y oy Hy Hav) as (customer' & c' & Hc' & Hin).
  destruct (decide (customer = customer')) as [<- | Hnc].
  - exists customer, (set_booked_rooms l c). rewrite lookup_insert_eq.
    split; [reflexivity |]. rewrite Hc in Hc'. injection Hc' as <-. cbn.
    pose proof (py_list_remove_In _ _ _ Hrem) as Hroom.
    destruct (py_list_remove_first _ _ Hroom) as (l1 & l2 & Hl & _ & Hrem').
    rewrite Hrem in Hrem'. injection Hrem' as ->.
    rewrite Hl in Hin. apply in_app_or in Hin as [Hin | [Heq | Hin]].
    + apply in_or_app. left. exact Hin.
    + congruence.
    + apply in_or_app. right. exact Hin.
  - exists customer', c'. rewrite lookup_insert_ne by exact Hnc. split; assumption.
Qed.

Lemma exec_accounted (op : Op) (w : World) :
  hotel_op op ->
  accounted (room_heap w) (cust_heap w) ->
  accounted (room_heap (exec op w)) (cust_heap (exec op w)).
Proof.
  intros Hop Hinv. destruct op; cbn [hotel_op] in Hop; try destruct Hop.
  - destruct (Room_init_effect number rtype price maxg w) as [-> | (r & Hr & ->)];
      [exact Hinv |].
    cbn. apply accounted_new_room. exact Hinv.
  - destruct (Customer_init_effect cname cbudget w) as [-> | (c0 & Hfresh & _ & ->)];
      [exact Hinv |].
    cbn. apply accounted_new_customer; assumption.
  - destruct (Hotel_add_room_effect room w) as (-> & -> & _). exact Hinv.
  - destruct (readonly_effect (HotelShow rtype) w I) as (-> & -> & _). exact Hinv.
  - destruct (readonly_effect (HotelTotal number nights) w I) as (-> & -> & _).
    exact Hinv.
  - destruct (Hotel_log_booking_effect customer room total_price nights w)
      as (-> & -> & _).
    exact Hinv.
  - cbn [exec].
    destruct (Hotel.book_room_for_customer customer number nights guests w)
      as [res w'] eqn:E.
    cbn [snd].
    destruct (book_effect _ _ _ _ _ _ _ E) as (_ & [(-> & -> & _) | Hb]);
      [exact Hinv |].
    destruct Hb as (r & o & c & total & _ & _ & _ & _ & _ & Hc & _ & _ & -> & -> & _).
    apply accounted_book; assumption.
  - cbn [exec].
    destruct (Hotel.cancel_booking customer number w) as [res w'] eqn:E.
    cbn [snd].
    destruct (cancel_effect _ _ _ _ _ E) as (_ & [(-> & -> & _) | Hb]);
      [exact Hinv |].
    destruct Hb as (r & o & c & l & _ & _ & Hc & Hrem & _ & ->).
    cbn. apply accounted_cancel; assumption.
Qed.

Lemma exec_all_accounted (ops : list Op) (w : World) :
  Forall hotel_op ops ->
  accounted (room_heap w) (cust_heap w) ->
  accounted (room_heap (exec_all ops w)) (cust_heap (exec_all ops w)).
Proof.
  revert w. induction ops as [| op ops IH]; intros w Hops Hinv; [exact Hinv |].
  inversion Hops as [| ? ? Hop Hrest]; subst. cbn [exec_all fold_left].
  apply IH; [exact Hrest |]. apply exec_accounted; assumption.
Qed.

(** X21: in any session of constructor calls and public [Hotel] methods
    from a freshly built hotel, a room object is unavailable exactly when it
    is on some customer's [booked_rooms] list: no room is ever left blocked
    without a booking, not even by a call that raised. *)
Theorem unavailable_iff_booked (hname : string) (h : HotelObj)
    (clock : nat -> DateTime) (ops : list Op) (r : loc) (o : RoomObj) :
  Hotel.init hname = Ok h ->
  Forall hotel_op ops ->
  room_heap (exec_all ops (fresh_world h clock)) !! r = Some o ->
  (is_available o = false
   <-> exists customer c,
         cust_heap (exec_all ops (fresh_world h clock)) !! customer = Some c
         /\ In r (booked_rooms c)).
Proof.
  intros _ Hops Ho. split.
  - intros Hav.
    exact (exec_all_accounted ops (fresh_world h clock) Hops accounted_empty r o Ho Hav).
  - intros (customer & c & Hc & Hin).
    assert (Hinv : consistent (room_heap (exec_all ops (fresh_world h clock)))
                              (cust_heap (exec_all ops (fresh_world h clock)))).
    { apply exec_all_consistent; [exact Hops | exact consistent_empty]. }
    destruct (listed_unavailable _ _ Hinv customer c r Hc Hin) as (o' & Ho' & Hav).
    rewrite Ho in Ho'. injection Ho' as <-. exact Hav.
Qed.

Lemma unavailable_iff_booked_witness :
  let w := exec_all sample_session (fresh_world (mkHotel "Hotel" [] []) sample_clock) in
  is_available <$> (room_heap w !! 1%positive) = Some true
  /\ (true = false
      <-> exists customer c,
            cust_heap w !! customer = Some c /\ In 1%positive (booked_rooms c)).
Proof.
  intros w. split; [reflexivity |].
  apply (unavailable_iff_booked "Hotel" (mkHotel "Hotel" [] []) sample_clock
           sample_session 1%positive (mkRoom 101 "Single" 100 true 1)).
  - reflexivity.
  - repeat constructor.
  - reflexivity.
Defined.

(** ** Pricing *)



(** X23: [Customer.remove_room] for a room that is not on the customer's
    list raises the [ValueError] of [list.remove] and changes nothing; so
    does a second [remove_room] after the only occurrence was removed. *)
Theorem remove_room_absent (w : World) (self room : loc) (c : CustomerObj)
    (o : RoomObj) :
  cust_heap w !! self = Some c ->
  room_heap w !! room = Some o ->
  (~ In room (booked_rooms c) ->
     Customer.remove_room self room w
     = (Raise (ValueError "list.remove(x): x not in list"), w))
  /\ (count_occ Pos.eq_dec (booked_rooms c) room = 1%nat ->
      exists w1,
        Customer.remove_room self room w = (Ok tt, w1)
        /\ Customer.remove_room self room w1
           = (Raise (ValueError "list.remove(x): x not in list"), w1)).
Proof.
  intros Hc Ho.
  assert (Habsent : forall w0 c0,
            cust_heap w0 !! self = Some c0 -> room_heap w0 !! room = Some o ->
            ~ In room (booked_rooms c0) ->
            Customer.remove_room self room w0
            = (Raise (ValueError "list.remove(x): x not in list"), w0)).
  { intros w0 c0 Hc0 Ho0 Hnot.
    unfold Customer.remove_room, isinstance_Room, bind. rewrite Ho0. cbn [negb].
    rewrite (get_customer_run w0 self c0 Hc0).
    rewrite (py_list_remove_absent _ _ Hnot). reflexivity. }
  split; [exact (Habsent w c Hc Ho) |].
  intros Hone.
  assert (Hin : In room (booked_rooms c)).
  { apply (count_occ_In Pos.eq_dec). unfold loc in *. lia. }
  destruct (py_list_remove_first _ _ Hin) as (l1 & l2 & Hl & _ & Hrem).
  eexists. split.
  - unfold Customer.remove_room, isinstance_Room, bind. rewrite Ho. cbn [negb].
    rewrite (get_customer_run w self c Hc), Hrem. reflexivity.
  - apply (Habsent _ (set_booked_rooms (l1 ++ l2) c));
      [cbn; apply lookup_insert_eq | exact Ho |].
    cbn. intros Hagain. apply (count_occ_In Pos.eq_dec) in Hagain.
    rewrite Hl, count_occ_remove_middle in Hone. unfold loc in *. lia.
Qed.

Lemma remove_room_absent_witness :
  let w1 := snd (Hotel.book_room_for_customer 1%positive 101 2 1 sample_world) in
  Customer.remove_room 1%positive 1%positive sample_world
  = (Raise (ValueError "list.remove(x): x not in list"), sample_world)
  /\ exists w2,
       Customer.remove_room 1%positive 1%positive w1 = (Ok tt, w2)
       /\ Customer.remove_room 1%positive 1%positive w2
          = (Raise (ValueError "list.remove(x): x not in list"), w2).
Proof.
  intros w1. split.
  - destruct (remove_room_absent sample_world 1%positive 1%positive
                (mkCustomer "lasha" 500 [] 0) (mkRoom 101 "Single" 100 true 1))
      as [H _]; [reflexivity | reflexivity |].
    apply H. intros [].
  - destruct (remove_room_absent w1 1%positive 1%positive
                (mkCustomer "lasha" (500 - 100 * 1.3 * inject_Z 2)%Q [1%positive]
                   (0 + py_int (100 * 1.3 * inject_Z 2 / 100)%Q))
                (mkRoom 101 "Single" 100 false 1))
      as [_ H]; [reflexivity | reflexivity |].
    apply H. reflexivity.
Defined.

Lemma session_rooms_ok_witness :
  Hotel.init "Hotel" = Ok (mkHotel "Hotel" [] [])
  /\ hotel_rooms_ok
       (exec_all sample_session (fresh_world (mkHotel "Hotel" [] []) sample_clock)).
Proof.
  split; [reflexivity |].
  apply (session_rooms_ok "Hotel" (mkHotel "Hotel" [] []) sample_clock sample_session).
  reflexivity.
Defined.
